(** * OCSP staple prefetching for the Apache plugin: model and properties

    A shallow embedding of
    [certbot-apache/certbot_apache/_internal/prefetch_ocsp.py].

    The Python methods of [OCSPPrefetchMixin] become computations of a state
    and exception monad over an explicit world: the file system, the
    in-memory prefetch dictionary, the plugin storage, the pending server
    configuration and a trace of the effects performed.  Everything the mixin
    obtains from its host object or from other modules (the OCSP checker, the
    Apache restart, the clock, ...) is a field of the record [host]. *)

From Stdlib Require Import ZArith QArith String Ascii List Bool Lia Lqa.
From stdpp Require Import base gmap strings list.

Set Default Proof Using "Type".

(** ** Python's [posixpath] functions used by the mixin *)

Module os_path.

Definition sep : ascii := "/"%char.

Definition startswith_sep (p : string) : bool :=
  match p with
  | String c _ => Ascii.eqb c sep
  | EmptyString => false
  end.

Fixpoint endswith_sep (p : string) : bool :=
  match p with
  | EmptyString => false
  | String c EmptyString => Ascii.eqb c sep
  | String _ r => endswith_sep r
  end.

(** [os.path.join(a, b)]: an absolute [b] discards [a]; a separator is
    inserted unless [a] is empty or already ends with one. *)
Definition join (a b : string) : string :=
  if startswith_sep b then b
  else if String.eqb a "" || endswith_sep a then a +:+ b
  else a +:+ "/" +:+ b.

(** [(p[:i], p[i:])] for [i = p.rfind('/') + 1]. *)
Fixpoint rsplit (p : string) : string * string :=
  match p with
  | EmptyString => (EmptyString, EmptyString)
  | String c r =>
      match rsplit r with
      | (EmptyString, t) =>
          if Ascii.eqb c sep then (String c EmptyString, t)
          else (EmptyString, String c t)
      | (h, t) => (String c h, t)
      end
  end.

Fixpoint all_sep (p : string) : bool :=
  match p with
  | EmptyString => true
  | String c r => Ascii.eqb c sep && all_sep r
  end.

(** [p.rstrip('/')] *)
Fixpoint rstrip_sep (p : string) : string :=
  match p with
  | EmptyString => EmptyString
  | String c r =>
      match rstrip_sep r with
      | EmptyString => if Ascii.eqb c sep then EmptyString else String c EmptyString
      | r' => String c r'
      end
  end.

Definition dirname (p : string) : string :=
  let head := fst (rsplit p) in
  if negb (String.eqb head "") && negb (all_sep head) then rstrip_sep head
  else head.

Definition basename (p : string) : string := snd (rsplit p).

(** [w], with the separator that [join] puts after it. *)
Definition with_sep (w : string) : string :=
  if String.eqb w "" || endswith_sep w then w else w +:+ "/".

End os_path.

(** ** Hexadecimal rendering of a digest *)

Definition hex_digit (b0 b1 b2 b3 : bool) : ascii :=
  match b3, b2, b1, b0 with
  | false, false, false, false => "0"
  | false, false, false, true => "1"
  | false, false, true, false => "2"
  | false, false, true, true => "3"
  | false, true, false, false => "4"
  | false, true, false, true => "5"
  | false, true, true, false => "6"
  | false, true, true, true => "7"
  | true, false, false, false => "8"
  | true, false, false, true => "9"
  | true, false, true, false => "a"
  | true, false, true, true => "b"
  | true, true, false, false => "c"
  | true, true, false, true => "d"
  | true, true, true, false => "e"
  | true, true, true, true => "f"
  end%char.

(** [binascii.hexlify]: two lower-case hexadecimal digits per byte, the high
    nibble first. *)
Fixpoint hexlify (d : string) : string :=
  match d with
  | EmptyString => EmptyString
  | String (Ascii b0 b1 b2 b3 b4 b5 b6 b7) r =>
      String (hex_digit b4 b5 b6 b7) (String (hex_digit b0 b1 b2 b3) (hexlify r))
  end.

(** ** Exceptions *)

(** The exception classes the module raises or catches.  [IOError] is
    [OSError] (Python 3). *)
Inductive exn_class :=
| OSError
| KeyError
| PluginError
| MisconfigurationError
| NotSupportedError
| PluginStorageError
| OCSPCertificateError.

Record exn := Exn { exn_cls : exn_class; exn_msg : string }.

(** [isinstance(e, errors.PluginError)]: [certbot.errors] derives
    [MisconfigurationError], [NotSupportedError] and [PluginStorageError]
    from [PluginError]; [OCSPCertificateError] derives from it at the end of
    the module. *)
Definition is_PluginError (e : exn) : bool :=
  match exn_cls e with
  | PluginError | MisconfigurationError | NotSupportedError
  | PluginStorageError | OCSPCertificateError => true
  | OSError | KeyError => false
  end.

Definition is_OCSPCertificateError (e : exn) : bool :=
  match exn_cls e with OCSPCertificateError => true | _ => false end.

Definition is_OSError (e : exn) : bool :=
  match exn_cls e with OSError => true | _ => false end.

Definition is_KeyError (e : exn) : bool :=
  match exn_cls e with KeyError => true | _ => false end.

(** What code outside this module can raise: it cannot name
    [OCSPCertificateError], which this module defines. *)
Inductive lib_class :=
| LOSError
| LPluginError
| LMisconfigurationError
| LNotSupportedError
| LPluginStorageError.

Record lib_exn := LibExn { lib_cls : lib_class; lib_msg : string }.

Definition of_lib (e : lib_exn) : exn :=
  Exn match lib_cls e with
      | LOSError => OSError
      | LPluginError => PluginError
      | LMisconfigurationError => MisconfigurationError
      | LNotSupportedError => NotSupportedError
      | LPluginStorageError => PluginStorageError
      end (lib_msg e).

Inductive result (A : Type) :=
| Ok (a : A)
| Raise (e : exn).
Arguments Ok {A} a.
Arguments Raise {A} e.

(** ** The world *)

(** A file is a byte string or a DBM database (Apache's stapling cache). *)
Inductive content :=
| Raw (data : string)
| Dbm (db : gmap string string).

(** A prefetch entry, the value of [self._ocsp_prefetch[cert_path]].
    Timestamps of [time.time()] are taken as exact rationals. *)
Record prefetch_entry := { lastupdate : Q; chain_path : string }.

(** A Python [dict] from certificate path to entry, in insertion order. *)
Definition dict := list (string * prefetch_entry).

Fixpoint dict_get (k : string) (d : dict) : option prefetch_entry :=
  match d with
  | [] => None
  | (k', v) :: r => if String.eqb k k' then Some v else dict_get k r
  end.

(** [d[k] = v]: an existing key keeps its position. *)
Fixpoint dict_set (k : string) (v : prefetch_entry) (d : dict) : dict :=
  match d with
  | [] => [(k, v)]
  | (k', v') :: r =>
      if String.eqb k k' then (k', v) :: r else (k', v') :: dict_set k v r
  end.

Fixpoint dict_del (k : string) (d : dict) : dict :=
  match d with
  | [] => []
  | (k', v') :: r =>
      if String.eqb k k' then dict_del k r else (k', v') :: dict_del k r
  end.

Definition dict_keys (d : dict) : list string := map fst d.

(** Python truthiness of a dict. *)
Definition dict_nonempty (d : dict) : bool :=
  match d with [] => false | _ => true end.

(** The value held by the plugin storage under the key ["ocsp_prefetch"]:
    either the very object [self._ocsp_prefetch] (after a [put] or a
    [fetch], which hand over a reference), or a dictionary of its own (as
    loaded from disk and not yet fetched). *)
Inductive slot :=
| Shared
| Own (d : dict).

Inductive level := DEBUG | WARNING.

(** Effects, in the order performed. *)
Inductive event :=
| EvMakedirs (path : string)
| EvOcspQuery (cert chain response_file : string)
| EvCopy (src dst : string) (ok : bool)
| EvDbmWrite (path key value : string)
| EvReplace (src dst : string) (ok : bool)
| EvRemove (path : string) (ok : bool)
| EvStoragePut (value : dict)
| EvStorageSave (ok : bool)
| EvLog (lvl : level) (msg : string)
| EvSleep (seconds : Z)
| EvEnableStapling (vhost : string) (ok : bool)
| EvApacheRestart (ok : bool)
| EvRecovery (ok : bool)
| EvConfigSave (title : string) (ok : bool).

Record state := State {
  files : gmap string content;       (* regular files, by path *)
  dirs : gset string;                (* directories *)
  ocsp_prefetch : dict;              (* self._ocsp_prefetch *)
  storage_initialized : bool;        (* the storage has read its file *)
  storage_data : option slot;        (* storage data under "ocsp_prefetch" *)
  storage_disk : option dict;        (* the same key in the storage file *)
  cfg_pending : list string;         (* unsaved configuration changes *)
  cfg_saved : list string;           (* saved configuration changes *)
  trace : list event                 (* effects so far, oldest first *)
}.

Definition set_files (f : gmap string content) (s : state) : state :=
  State f (dirs s) (ocsp_prefetch s) (storage_initialized s) (storage_data s)
        (storage_disk s) (cfg_pending s) (cfg_saved s) (trace s).

Definition set_dirs (d : gset string) (s : state) : state :=
  State (files s) d (ocsp_prefetch s) (storage_initialized s) (storage_data s)
        (storage_disk s) (cfg_pending s) (cfg_saved s) (trace s).

Definition set_ocsp_prefetch (p : dict) (s : state) : state :=
  State (files s) (dirs s) p (storage_initialized s) (storage_data s)
        (storage_disk s) (cfg_pending s) (cfg_saved s) (trace s).

Definition set_storage (i : bool) (d : option slot) (k : option dict)
    (s : state) : state :=
  State (files s) (dirs s) (ocsp_prefetch s) i d k (cfg_pending s)
        (cfg_saved s) (trace s).

Definition set_cfg (p sv : list string) (s : state) : state :=
  State (files s) (dirs s) (ocsp_prefetch s) (storage_initialized s)
        (storage_data s) (storage_disk s) p sv (trace s).

Definition emit (e : event) (s : state) : state :=
  State (files s) (dirs s) (ocsp_prefetch s) (storage_initialized s)
        (storage_data s) (storage_disk s) (cfg_pending s) (cfg_saved s)
        (trace s ++ [e]).

(** ** The monad of methods: state and exceptions *)

Definition M (A : Type) : Type := state -> result A * state.

Definition ret {A} (a : A) : M A := fun s => (Ok a, s).

Definition bind {A B} (m : M A) (k : A -> M B) : M B :=
  fun s =>
    match m s with
    | (Ok a, s') => k a s'
    | (Raise e, s') => (Raise e, s')
    end.

Definition raise {A} (e : exn) : M A := fun s => (Raise e, s).

Definition gets {A} (f : state -> A) : M A := fun s => (Ok (f s), s).

Definition modify (f : state -> state) : M unit := fun s => (Ok tt, f s).

Notation "x <- m ;; k" := (bind m (fun x => k))
  (at level 100, m at next level, right associativity).
Notation "m ;; k" := (bind m (fun _ => k))
  (at level 100, right associativity).

(** [try: m  except C as e: h e], where [catches] is the class test. *)
Definition try_except {A} (m : M A) (catches : exn -> bool) (h : exn -> M A)
    : M A :=
  fun s =>
    match m s with
    | (Raise e, s') => if catches e then h e s' else (Raise e, s')
    | r => r
    end.

(** [try: m  finally: f]: [f] always runs; an exception of [f] replaces the
    outcome of [m]. *)
Definition try_finally {A} (m : M A) (f : M unit) : M A :=
  fun s =>
    match m s with
    | (r, s') =>
        match f s' with
        | (Ok _, s'') => (r, s'')
        | (Raise e, s'') => (Raise e, s'')
        end
    end.

(** [for x in l: body x] *)
Fixpoint for_each {A} (l : list A) (body : A -> M unit) : M unit :=
  match l with
  | [] => ret tt
  | x :: r => body x ;; for_each r body
  end.

Definition log (lvl : level) (msg : string) : M unit :=
  modify (emit (EvLog lvl msg)).

(** ** The host of the mixin *)

Module Lineage.
(** The renewal lineage handed to the enhancement: only the two paths the
    mixin reads. *)
Record t := { cert_path : string; chain_path : string }.
End Lineage.

Record vhost := { vh_name : string; ssl : bool }.

Global Instance vhost_eq_dec : EqDecision vhost.
Proof. solve_decision. Defined.

(** What the mixin takes from its host object, from [constants], from
    [apache_util], from [certbot.ocsp] and from the operating system.  An
    answer may depend on the whole world at the time of the call. *)
Record host := {
  work_dir : string;                        (* self.config.work_dir *)
  OCSP_INTERNAL_TTL : Q;                    (* constants.OCSP_INTERNAL_TTL *)
  time_time : state -> Q;                   (* time.time() *)
  utcnow : state -> Z;                      (* datetime.utcnow(), microseconds *)
  str_datetime : Z -> string;               (* str(datetime) *)
  bsddb_importable : bool;                  (* import bsddb succeeds *)
  ndbm_library : option string;             (* dbm.ndbm.library, if any *)
  dbm_bytes : gmap string string -> string; (* the bytes of a DBM file *)
  cert_digest : option content -> string;   (* SHA1 of the fingerprint *)
  get_apache_ocsp_struct : state -> Z -> string -> string;
  (* RevocationChecker.ocsp_revoked_by_paths: the answer, and the response
     it wrote to response_file, if it wrote one *)
  ocsp_revoked_by_paths :
    state -> string -> string -> (lib_exn + bool) * option string;
  (* RevocationChecker.ocsp_times: nextUpdate read from the response file *)
  ocsp_times : state -> option content -> lib_exn + option Z;
  copy_fails : state -> string -> string -> bool;
  dbm_open_fails : state -> string -> bool;
  replace_fails : state -> string -> string -> bool;
  storage_save_fails : state -> bool;
  choose_vhosts : state -> string -> list vhost;
  enable_stapling_outcome : state -> vhost -> option lib_exn;
  (* the restart of the base class: its failure, and what it leaves at the
     path of the active stapling cache *)
  apache_restart : state -> option lib_exn * option content;
  recovery_outcome : state -> option lib_exn;
  config_save_outcome : state -> option lib_exn
}.

Definition hour : Z := 3600.

(** [a < b] on timestamps. *)
Definition Qlt_bool (a b : Q) : bool :=
  (Qnum a * QDen b <? Qnum b * QDen a)%Z.

Definition nl : string := String (ascii_of_nat 10) EmptyString.

(** [f[:-3] if f.endswith(".db") else f] *)
Fixpoint strip_db (f : string) : string :=
  match f with
  | EmptyString => EmptyString
  | String c r =>
      if String.eqb (String c r) ".db" then EmptyString
      else String c (strip_db r)
  end.

Section Mixin.

Variable H : host.

(** *** Operating system and collaborators *)

Definition isdir (p : string) : M bool :=
  gets (fun s => bool_decide (p ∈ dirs s)).

Definition isfile (p : string) : M bool :=
  gets (fun s => match files s !! p with Some _ => true | None => false end).

(** [filesystem.makedirs(path, 0o755)].  The module handles no failure of
    it anywhere; it is taken to succeed. *)
Definition filesystem_makedirs (p : string) : M unit :=
  modify (fun s => emit (EvMakedirs p) (set_dirs ({[p]} ∪ dirs s) s)).

(** Modelled from the spec: [apache_util.safe_copy] is not in this file.
    It copies [src] to [dst] and raises [PluginError] when it cannot; a
    failed copy changes no file. *)
Definition safe_copy (src dst : string) : M unit :=
  fun s =>
    match files s !! src with
    | Some c =>
        if copy_fails H s src dst then
          (Raise (Exn PluginError ("Could not copy " +:+ src +:+ " to " +:+ dst)),
           emit (EvCopy src dst false) s)
        else
          (Ok tt, emit (EvCopy src dst true) (set_files (<[dst := c]> (files s)) s))
    | None =>
        (Raise (Exn PluginError ("Could not copy " +:+ src +:+ " to " +:+ dst)),
         emit (EvCopy src dst false) s)
    end.

(** [filesystem.replace(src, dst)]: an atomic rename over [dst], or an
    [OSError] and no change. *)
Definition filesystem_replace (src dst : string) : M unit :=
  fun s =>
    match files s !! src with
    | Some c =>
        if replace_fails H s src dst then
          (Raise (Exn OSError ("Could not replace " +:+ dst)),
           emit (EvReplace src dst false) s)
        else
          (Ok tt, emit (EvReplace src dst true)
                    (set_files (<[dst := c]> (delete src (files s))) s))
    | None =>
        (Raise (Exn OSError ("No such file or directory: " +:+ src)),
         emit (EvReplace src dst false) s)
    end.

(** [os.remove(path)] *)
Definition os_remove (p : string) : M unit :=
  fun s =>
    match files s !! p with
    | Some _ =>
        (Ok tt, emit (EvRemove p true) (set_files (delete p (files s)) s))
    | None =>
        (Raise (Exn OSError ("No such file or directory: " +:+ p)),
         emit (EvRemove p false) s)
    end.

(** [open(path, 'rb').read()] *)
Definition read_bytes (p : string) : M string :=
  fun s =>
    match files s !! p with
    | Some (Raw d) => (Ok d, s)
    | Some (Dbm m) => (Ok (dbm_bytes H m), s)
    | None => (Raise (Exn OSError ("No such file or directory: " +:+ p)), s)
    end.

Definition sleep (seconds : Z) : M unit := modify (emit (EvSleep seconds)).

(** [apache_util.certid_sha1(cert_path)]: the raw digest. *)
Definition certid_sha1 (cert_path : string) : M string :=
  gets (fun s => cert_digest H (files s !! cert_path)).

(** Modelled from the spec: [apache_util.certid_sha1_hex] is not in this
    file; the scratch file is named by the hexadecimal digest of the same
    fingerprint. *)
Definition certid_sha1_hex (cert_path : string) : M string :=
  d <- certid_sha1 cert_path ;; ret (hexlify d).

(** [handler.ocsp_revoked_by_paths(cert_path, chain_path, response_file)] *)
Definition ocsp_revoked (cert_path chain_path response_file : string)
    : M bool :=
  fun s =>
    let '(answer, written) := ocsp_revoked_by_paths H s cert_path chain_path in
    let s1 :=
      match written with
      | Some d => set_files (<[response_file := Raw d]> (files s)) s
      | None => s
      end in
    let s2 := emit (EvOcspQuery cert_path chain_path response_file) s1 in
    match answer with
    | inl e => (Raise (of_lib e), s2)
    | inr b => (Ok b, s2)
    end.

(** [_, _, next_update = handler.ocsp_times(workfile)] *)
Definition ocsp_next_update (workfile : string) : M (option Z) :=
  fun s =>
    match ocsp_times H s (files s !! workfile) with
    | inl e => (Raise (of_lib e), s)
    | inr nu => (Ok nu, s)
    end.

(** Modelled from the spec: the persistence collaborator
    ([fetch(key) -> value or not-found], [put(key, value)], [save()]),
    for the one key ["ocsp_prefetch"].  It reads its file on first use and
    writes it on [save()] only. *)
Definition storage_initialize : M unit :=
  modify (fun s =>
    if storage_initialized s then s
    else set_storage true (option_map Own (storage_disk s)) (storage_disk s) s).

Definition storage_fetch : M slot :=
  storage_initialize ;;
  d <- gets storage_data ;;
  match d with
  | Some v => ret v
  | None => raise (Exn KeyError "ocsp_prefetch")
  end.

(** [self.storage.put("ocsp_prefetch", self._ocsp_prefetch)] *)
Definition storage_put : M unit :=
  storage_initialize ;;
  modify (fun s =>
    emit (EvStoragePut (ocsp_prefetch s))
      (set_storage true (Some Shared) (storage_disk s) s)).

Definition storage_value (s : state) : option dict :=
  match storage_data s with
  | Some Shared => Some (ocsp_prefetch s)
  | Some (Own d) => Some d
  | None => None
  end.

Definition storage_save : M unit :=
  fun s =>
    if negb (storage_initialized s) then
      (Raise (Exn PluginStorageError
                "Unable to save, no values have been added to PluginStorage."),
       s)
    else if storage_save_fails H s then
      (Raise (Exn PluginStorageError "Could not write PluginStorage data to file"),
       emit (EvStorageSave false) s)
    else
      (Ok tt, emit (EvStorageSave true)
                (set_storage true (storage_data s) (storage_value s) s)).

(** [self._enable_ocsp_stapling(vh, None, prefetch=True)] of the host *)
Definition _enable_ocsp_stapling (vh : vhost) : M unit :=
  fun s =>
    match enable_stapling_outcome H s vh with
    | Some e => (Raise (of_lib e), emit (EvEnableStapling (vh_name vh) false) s)
    | None =>
        (Ok tt, emit (EvEnableStapling (vh_name vh) true)
                  (set_cfg (cfg_pending s ++ [vh_name vh]) (cfg_saved s) s))
    end.

(** [self.recovery_routine()] of the host: drops the unsaved changes. *)
Definition recovery_routine : M unit :=
  fun s =>
    match recovery_outcome H s with
    | Some e => (Raise (of_lib e), emit (EvRecovery false) s)
    | None => (Ok tt, emit (EvRecovery true) (set_cfg [] (cfg_saved s) s))
    end.

(** [self.save(title)] of the host: makes the pending changes permanent. *)
Definition config_save (title : string) : M unit :=
  fun s =>
    match config_save_outcome H s with
    | Some e => (Raise (of_lib e), emit (EvConfigSave title false) s)
    | None =>
        (Ok tt, emit (EvConfigSave title true)
                  (set_cfg [] (cfg_saved s ++ cfg_pending s) s))
    end.

(** *** [DBMHandler] *)

(** The file that [__enter__] opens: [bsddb.hashopen] takes the name as
    it is, [dbm.ndbm.open] appends the extension to the stripped name. *)
Definition dbm_filename (filename : string) : string :=
  if bsddb_importable H then filename else strip_db filename +:+ ".db".

(** [__enter__], for the mode ['w'] (the only one used): the database must
    exist; any failure becomes a [PluginError]. *)
Definition DBMHandler_enter (filename : string) : M string :=
  fun s =>
    let f := dbm_filename filename in
    match files s !! f with
    | Some (Dbm _) =>
        if dbm_open_fails H s f then
          (Raise (Exn PluginError "Unable to open dbm database file."), s)
        else (Ok f, s)
    | _ => (Raise (Exn PluginError "Unable to open dbm database file."), s)
    end.

(** [db[key] = value] *)
Definition db_setitem (db key value : string) : M unit :=
  fun s =>
    match files s !! db with
    | Some (Dbm m) =>
        (Ok tt, emit (EvDbmWrite db key value)
                  (set_files (<[db := Dbm (<[key := value]> m)]> (files s)) s))
    | _ => (Raise (Exn OSError "not a database"), s)
    end.

(** [__exit__]: sync and close. *)
Definition DBMHandler_exit : M unit := ret tt.

(** *** [OCSPPrefetchMixin] *)

Definition _ocsp_store : string :=
  os_path.join (os_path.join (work_dir H) "ocsp") "ocsp_cache.db".

Definition _ocsp_work : string :=
  os_path.join (os_path.join (work_dir H) "ocsp_work") "ocsp_cache.db".

Definition _ensure_ocsp_dirs : M unit :=
  for_each [os_path.dirname _ocsp_work; os_path.dirname _ocsp_store]
    (fun path =>
       d <- isdir path ;;
       if negb d then filesystem_makedirs path else ret tt).

Definition _ensure_ocsp_prefetch_compatibility : M unit :=
  if bsddb_importable H then ret tt
  else
    match ndbm_library H with
    | Some lib =>
        if negb (String.eqb lib "Berkeley DB") then
          raise (Exn NotSupportedError
            ("Unfortunately your operating system does not have a " +:+
             "compatible database module available for managing " +:+
             "Apache OCSP stapling cache database."))
        else ret tt
    | None =>
        raise (Exn NotSupportedError
          ("Unfortunately your operating system does not have a " +:+
           "compatible database module available for managing " +:+
           "Apache OCSP stapling cache database."))
    end.

Definition _ocsp_refresh_needed (lastupdate : Q) : M bool :=
  let ttl := (lastupdate + OCSP_INTERNAL_TTL H)%Q in
  now <- gets (time_time H) ;;
  if Qlt_bool ttl now then ret true else ret false.

Definition _write_to_dbm (filename key value : string) : M unit :=
  let tmp_file :=
    os_path.join (os_path.dirname _ocsp_work)
                 ("tmp_" +:+ os_path.basename filename) in
  safe_copy filename tmp_file ;;
  (db <- DBMHandler_enter tmp_file ;;
   try_finally (db_setitem db key value) DBMHandler_exit) ;;
  filesystem_replace tmp_file filename.

(** Datetimes are microseconds since the epoch.  [int(d.total_seconds())]
    truncates towards zero; [total_seconds()] is exact for the deltas that
    occur (below 2^53 microseconds). *)
Definition _ocsp_ttl (next_update : option Z) : M Z :=
  match next_update with
  | Some nu =>
      now <- gets (utcnow H) ;;
      let res_ttl := ((nu - now) ÷ 1000000)%Z in
      if (0 <? res_ttl)%Z then
        let safe_ttl := (res_ttl - 30 * hour)%Z in
        if (hour <? safe_ttl)%Z then ret safe_ttl
        else
          raise (Exn PluginError
            ("OCSP response nextUpdate timestamp too " +:+
             "early: " +:+ str_datetime H nu +:+
             ". Certbot cannot ensure a safe TTL" +:+
             "for OCSP staple prefeching."))
      else
        raise (Exn PluginError
          ("OCSP response nextUpdate timestamp too " +:+
           "early: " +:+ str_datetime H nu))
  | None =>
      raise (Exn PluginError
        ("OCSP response nextUpdate not provided with response. " +:+
         "Staple should not be prefetched."))
  end.

Definition _ocsp_response_dbm (workfile : string) : M string :=
  next_update <- ocsp_next_update workfile ;;
  ttl <- _ocsp_ttl next_update ;;
  response <- read_bytes workfile ;;
  gets (fun s => get_apache_ocsp_struct H s ttl response).

Definition _ocsp_refresh (cert_path chain_path : string) : M unit :=
  _ensure_ocsp_dirs ;;
  present <- isfile cert_path ;;
  if negb present then
    raise (Exn OCSPCertificateError "Certificate has been removed from the system.")
  else
    hex <- certid_sha1_hex cert_path ;;
    let ocsp_workfile := os_path.join (os_path.dirname _ocsp_work) hex in
    try_finally
      (revoked <- ocsp_revoked cert_path chain_path ocsp_workfile ;;
       if revoked then
         log WARNING ("Encountered an issue while trying to prefetch OCSP " +:+
                      "response for certificate: " +:+ cert_path) ;;
         raise (Exn OCSPCertificateError "Certificate has been revoked.")
       else
         cert_sha <- certid_sha1 cert_path ;;
         value <- _ocsp_response_dbm ocsp_workfile ;;
         _write_to_dbm _ocsp_store cert_sha value)
      (try_except (os_remove ocsp_workfile) is_OSError (fun _ => ret tt)).

Definition _ocsp_prefetch_save (cert_path chain_path : string) : M unit :=
  now <- gets (time_time H) ;;
  let status := {| lastupdate := now; chain_path := chain_path |} in
  modify (fun s => set_ocsp_prefetch (dict_set cert_path status (ocsp_prefetch s)) s) ;;
  storage_put ;;
  storage_save.

(** [self._ocsp_prefetch.pop(cert_path)] raises [KeyError] on a missing
    key. *)
Definition _ocsp_prefetch_remove (cert_path : string) : M unit :=
  (p <- gets ocsp_prefetch ;;
   match dict_get cert_path p with
   | Some _ => modify (set_ocsp_prefetch (dict_del cert_path p))
   | None => raise (Exn KeyError cert_path)
   end) ;;
  storage_put.

Definition _ocsp_prefetch_fetch_state : M unit :=
  try_except
    (v <- storage_fetch ;;
     match v with
     | Shared => ret tt
     | Own d =>
         modify (fun s =>
           set_storage true (Some Shared) (storage_disk s)
             (set_ocsp_prefetch d s))
     end)
    is_KeyError
    (fun _ => modify (set_ocsp_prefetch [])).

Definition _ocsp_prefetch_backup_db : M unit :=
  _ensure_ocsp_dirs ;;
  try_except (safe_copy _ocsp_store _ocsp_work) is_PluginError
    (fun _ => log DEBUG "Encountered an issue while trying to backup OCSP dbm file").

Definition _ocsp_prefetch_restore_db : M unit :=
  _ensure_ocsp_dirs ;;
  try_except (filesystem_replace _ocsp_work _ocsp_store) is_OSError
    (fun _ => log DEBUG "Encountered an issue when trying to restore OCSP dbm file").

(** [super(OCSPPrefetchMixin, self).restart()] *)
Definition super_restart : M unit :=
  fun s =>
    let '(failure, remains) := apache_restart H s in
    let f :=
      match remains with
      | Some c => <[_ocsp_store := c]> (files s)
      | None => delete _ocsp_store (files s)
      end in
    match failure with
    | Some e => (Raise (of_lib e), emit (EvApacheRestart false) (set_files f s))
    | None => (Ok tt, emit (EvApacheRestart true) (set_files f s))
    end.

(** The first statement of [restart]: try to populate the OCSP prefetch
    structure from the plugin storage. *)
Definition restart_load : M unit :=
  p <- gets ocsp_prefetch ;;
  if negb (dict_nonempty p) then _ocsp_prefetch_fetch_state else ret tt.

Definition restart : M unit :=
  restart_load ;;
  (p <- gets ocsp_prefetch ;;
   (* OCSP prefetching is enabled, so back up the db *)
   if dict_nonempty p then _ocsp_prefetch_backup_db else ret tt) ;;
  try_finally super_restart
    (p <- gets ocsp_prefetch ;;
     (* Restore the backed up dbm database *)
     if dict_nonempty p then _ocsp_prefetch_restore_db else ret tt).

Definition _ocsp_try_refresh (cert_path chain_path : string) : M unit :=
  try_except (_ocsp_refresh cert_path chain_path) is_PluginError
    (fun err =>
       if is_OCSPCertificateError err then
         _ocsp_prefetch_remove cert_path ;;
         log WARNING ("Error when trying to prefetch OCSP staple: " +:+
                      exn_msg err +:+
                      " OCSP prefetch functionality removed for the certificate") ;;
         raise err
       else
         log WARNING ("Encountered a issue when trying to renew OCSP staple: " +:+
                      exn_msg err)).

(** The set [prefetch_vhosts], as the list of its members. *)
Definition set_add (vh : vhost) (l : list vhost) : list vhost :=
  if bool_decide (vh ∈ l) then l else l ++ [vh].

Definition select_vhosts (s : state) (domains : list string) : list vhost :=
  fold_left
    (fun acc domain =>
       fold_left (fun acc vh => if ssl vh then set_add vh acc else acc)
                 (choose_vhosts H s domain) acc)
    domains [].

(** The [try] block of [enable_ocsp_prefetch], up to the first refresh ... *)
Definition enable_until_refresh (lineage : Lineage.t)
    (prefetch_vhosts : list vhost) : M unit :=
  for_each prefetch_vhosts _enable_ocsp_stapling ;;
  _ensure_ocsp_dirs ;;
  restart ;;
  (* Ensure Apache has enough time to properly restart and create the file *)
  sleep 2 ;;
  _ocsp_refresh (Lineage.cert_path lineage) (Lineage.chain_path lineage).

(** ... and as a whole. *)
Definition enable_sequence (lineage : Lineage.t) (prefetch_vhosts : list vhost)
    : M unit :=
  enable_until_refresh lineage prefetch_vhosts ;;
  _ocsp_prefetch_save (Lineage.cert_path lineage) (Lineage.chain_path lineage) ;;
  config_save "Enabled OCSP prefetching".

(** The message of the error that [enable_ocsp_prefetch] raises after a
    rollback. *)
Definition enable_error (err : exn) : exn :=
  Exn PluginError
    ("Encountered an error while trying to enable OCSP prefetch " +:+
     "enhancement: " +:+ exn_msg err +:+ nl +:+
     "OCSP prefetch was not enabled.").

(** The handler of [enable_ocsp_prefetch]. *)
Definition enable_rollback (err : exn) : M unit :=
  (* Revert the OCSP prefetch configuration *)
  recovery_routine ;;
  restart ;;
  raise (enable_error err).

Definition enable_ocsp_prefetch (lineage : Lineage.t) (domains : list string)
    : M unit :=
  (* Fail early if we are not able to support this *)
  _ensure_ocsp_prefetch_compatibility ;;
  prefetch_vhosts <- gets (fun s => select_vhosts s domains) ;;
  match prefetch_vhosts with
  | [] =>
      raise (Exn MisconfigurationError
               "Could not find VirtualHost to enable OCSP prefetching on.")
  | _ =>
      try_except (enable_sequence lineage prefetch_vhosts) is_PluginError
        enable_rollback
  end.

Definition deploy_ocsp_prefetch (lineage : Lineage.t) : M unit :=
  _ocsp_prefetch_fetch_state ;;
  p <- gets ocsp_prefetch ;;
  if negb (dict_nonempty p) then ret tt
  else
    match dict_get (Lineage.cert_path lineage) p with
    | Some _ =>
        (* [refreshed] is false when the handler returns early *)
        refreshed <-
          try_except
            (_ocsp_try_refresh (Lineage.cert_path lineage)
                               (Lineage.chain_path lineage) ;;
             ret true)
            is_OCSPCertificateError
            (fun _ => ret false) ;;
        if refreshed then
          _ocsp_prefetch_save (Lineage.cert_path lineage)
                              (Lineage.chain_path lineage)
        else ret tt
    | None => ret tt
    end.

(** The body of the loop of [update_ocsp_prefetch]. *)
Definition update_one (cert_path : string) : M unit :=
  p <- gets ocsp_prefetch ;;
  match dict_get cert_path p with
  | Some pf =>
      due <- _ocsp_refresh_needed (lastupdate pf) ;;
      if due then
        let chain_path := chain_path pf in
        (* [refreshed] is false when the handler continues the loop *)
        refreshed <-
          try_except (_ocsp_try_refresh cert_path chain_path ;; ret true)
            is_OCSPCertificateError (fun _ => ret false) ;;
        if refreshed then _ocsp_prefetch_save cert_path chain_path else ret tt
      else ret tt
  | None => raise (Exn KeyError cert_path)
  end.

Definition update_ocsp_prefetch : M unit :=
  _ocsp_prefetch_fetch_state ;;
  p <- gets ocsp_prefetch ;;
  if negb (dict_nonempty p) then ret tt
  else for_each (dict_keys p) update_one.

(** The directory that holds [ocsp/] and [ocsp_work/]. *)
Definition base : string := os_path.with_sep (work_dir H).

(** The temporary copy that [_write_to_dbm] edits. *)
Definition tmp_file : string :=
  os_path.join (os_path.dirname _ocsp_work)
               ("tmp_" +:+ os_path.basename _ocsp_store).

(** The scratch file of a certificate with raw digest [d]. *)
Definition workfile (d : string) : string :=
  os_path.join (os_path.dirname _ocsp_work) (hexlify d).

End Mixin.

Definition usec (seconds : Z) : Z := (seconds * 1000000)%Z.

(** ** Vocabulary of the properties *)

(** [m] leaves the observation [obs] of the world as it was, whether it
    returns or raises. *)
Definition preserves {B A} (obs : state -> B) (m : M A) : Prop :=
  forall s, obs (snd (m s)) = obs s.

(** When [m] raises, the observation [obs] is as it was. *)
Definition preserves_on_failure {B A} (obs : state -> B) (m : M A) : Prop :=
  forall s e s', m s = (Raise e, s') -> obs s' = obs s.

(** Every exception that [m] raises satisfies [C]. *)
Definition raises_only {A} (C : exn -> Prop) (m : M A) : Prop :=
  forall s e s', m s = (Raise e, s') -> C e.

Definition never_raises {A} (m : M A) : Prop := raises_only (fun _ => False) m.

(** What the mixin keeps besides files: its dictionary, the plugin storage
    and the server configuration. *)
Definition mixin_state (s : state) :=
  (ocsp_prefetch s, storage_initialized s, storage_data s, storage_disk s,
   cfg_pending s, cfg_saved s).

(** The file at path [p], if any. *)
Definition file_at (p : string) (s : state) : option content := files s !! p.

(** Classes of exceptions. *)
Definition not_eviction (e : exn) : Prop := is_OCSPCertificateError e = false.

Definition plugin_error (e : exn) : Prop := is_PluginError e = true.

(** The debug messages of the restart guard. *)
Definition backup_failed : event :=
  EvLog DEBUG "Encountered an issue while trying to backup OCSP dbm file".

Definition restore_failed : event :=
  EvLog DEBUG "Encountered an issue when trying to restore OCSP dbm file".

(** A failure that [_ocsp_try_refresh] takes for transient: a
    [PluginError] that is not an [OCSPCertificateError]. *)
Definition transient (e : exn) : Prop :=
  is_PluginError e = true /\ is_OCSPCertificateError e = false.

(** The warning that [_ocsp_try_refresh] logs for a transient failure ... *)
Definition renew_issue (e : exn) : event :=
  EvLog WARNING
    ("Encountered a issue when trying to renew OCSP staple: " +:+ exn_msg e).

(** ... and for an eviction. *)
Definition eviction_notice (e : exn) : event :=
  EvLog WARNING
    ("Error when trying to prefetch OCSP staple: " +:+ exn_msg e +:+
     " OCSP prefetch functionality removed for the certificate").

(** A host on which a refresh meets no error of the operating system: the
    final replace does not fail, the OCSP checker raises no [OSError], and it
    cannot read the times of a response that is not there. *)
Definition no_os_errors (H : host) : Prop :=
  (forall s src dst, replace_fails H s src dst = false) /\
  (forall s cert chain e,
     fst (ocsp_revoked_by_paths H s cert chain) = inl e -> lib_cls e <> LOSError) /\
  (forall s f e, ocsp_times H s f = inl e -> lib_cls e <> LOSError) /\
  (forall s, exists e, ocsp_times H s None = inl e).

(** ** Concrete worlds *)

Definition empty_state : state := State ∅ ∅ [] false None None [] [] [].

(** A host whose collaborators follow a script: the responder's answer per
    certificate, the nextUpdate it reports, whether the final replace fails,
    how the restart of Apache ends and what it leaves of the stapling cache,
    and how saving the configuration ends.  Everything else works. *)
Definition scripted_host (now : Q) (utc : Z)
    (responder : string -> (lib_exn + bool) * option string)
    (next_update : lib_exn + option Z) (replace_failure : bool)
    (restart_failure : option lib_exn) (restart_leaves : option content)
    (config_save_failure : option lib_exn) : host := {|
  work_dir := "/var/lib/letsencrypt";
  OCSP_INTERNAL_TTL := 86400;
  time_time := fun _ => now;
  utcnow := fun _ => utc;
  str_datetime := fun _ => "<nextUpdate>";
  bsddb_importable := false;
  ndbm_library := Some "Berkeley DB";
  dbm_bytes := fun _ => "<dbm>";
  cert_digest := fun c => match c with Some (Raw d) => d | _ => "" end;
  get_apache_ocsp_struct := fun _ _ response => response;
  ocsp_revoked_by_paths := fun _ cert _ => responder cert;
  ocsp_times := fun _ response =>
    match response with
    | Some _ => next_update
    | None => inl (LibExn LPluginError "Unable to read the OCSP response")
    end;
  copy_fails := fun _ _ _ => false;
  dbm_open_fails := fun _ _ => false;
  replace_fails := fun _ _ _ => replace_failure;
  storage_save_fails := fun _ => false;
  choose_vhosts := fun _ domain => [{| vh_name := domain; ssl := true |}];
  enable_stapling_outcome := fun _ _ => None;
  apache_restart := fun _ => (restart_failure, restart_leaves);
  recovery_outcome := fun _ => None;
  config_save_outcome := fun _ => config_save_failure
|}.

(** A host on which everything works: the responder answers "good" with a
    response valid for [validity] microseconds, and Apache restarts leaving
    a fresh, empty stapling cache. *)
Definition plain_host (now : Q) (utc validity : Z) : host :=
  scripted_host now utc (fun _ => (inr false, Some "response"))
    (inr (Some (utc + validity)%Z)) false None (Some (Dbm ∅)) None.

Definition example_cert : string := "/etc/letsencrypt/live/example.org/cert.pem".
Definition example_chain : string := "/etc/letsencrypt/live/example.org/chain.pem".

(** A world in which Apache's stapling cache holds a staple and the
    certificate is on disk. *)
Definition stapled_state (H : host) : state :=
  State (<[example_cert := Raw "pem"]>
           (<[_ocsp_store H := Dbm {["old key" := "old staple"]}]> ∅))
        ∅ [] false None None [] [] [].

(** The same world, with the certificate tracked in the storage file. *)
Definition tracked_state (H : host) : state :=
  State (<[example_cert := Raw "pem"]>
           (<[_ocsp_store H := Dbm {["old key" := "old staple"]}]> ∅))
        ∅ [] false None
        (Some [(example_cert, {| lastupdate := 0; chain_path := example_chain |})])
        [] [] [].

(** A host whose restart deletes the stapling cache. *)
Definition deleting_host : host :=
  scripted_host 0 0 (fun _ => (inr false, Some "response"))
    (inr (Some (usec (48 * hour)))) false None None None.

(** A host on which saving the configuration fails. *)
Definition unsaved_host : host :=
  scripted_host 1000 0 (fun _ => (inr false, Some "response"))
    (inr (Some (usec (48 * hour)))) false None (Some (Dbm ∅))
    (Some (LibExn LPluginError "Unable to finalize checkpoint")).

Definition example_lineage : Lineage.t :=
  {| Lineage.cert_path := example_cert; Lineage.chain_path := example_chain |}.

Definition restart_attempted (s : state) : bool :=
  existsb (fun ev => match ev with EvApacheRestart _ => true | _ => false end)
          (trace s).

(** A host on which the first restart of Apache fails and the later ones
    work. *)
Definition flaky_restart_host : host := {|
  work_dir := "/var/lib/letsencrypt";
  OCSP_INTERNAL_TTL := 86400;
  time_time := fun _ => 1000%Q;
  utcnow := fun _ => 0%Z;
  str_datetime := fun _ => "<nextUpdate>";
  bsddb_importable := false;
  ndbm_library := Some "Berkeley DB";
  dbm_bytes := fun _ => "<dbm>";
  cert_digest := fun c => match c with Some (Raw d) => d | _ => "" end;
  get_apache_ocsp_struct := fun _ _ response => response;
  ocsp_revoked_by_paths := fun _ _ _ => (inr false, Some "response");
  ocsp_times := fun _ response =>
    match response with
    | Some _ => inr (Some (usec (48 * hour)))
    | None => inl (LibExn LPluginError "Unable to read the OCSP response")
    end;
  copy_fails := fun _ _ _ => false;
  dbm_open_fails := fun _ _ => false;
  replace_fails := fun _ _ _ => false;
  storage_save_fails := fun _ => false;
  choose_vhosts := fun _ domain => [{| vh_name := domain; ssl := true |}];
  enable_stapling_outcome := fun _ _ => None;
  apache_restart := fun s =>
    if restart_attempted s then (None, Some (Dbm ∅))
    else (Some (LibExn LMisconfigurationError "Error while running apachectl graceful"),
          Some (Dbm ∅));
  recovery_outcome := fun _ => None;
  config_save_outcome := fun _ => None
|}.

(** A host whose responder's answers are valid for 30 hours and 1 minute
    only, so that no TTL can be computed: every refresh fails with a
    transient error.  The clock reads 100000 seconds. *)
Definition short_validity_host : host :=
  plain_host 100000 0 (usec (30 * hour + 60)).

Definition ttl_failure : exn :=
  Exn PluginError
    ("OCSP response nextUpdate timestamp too early: <nextUpdate>" +:+
     ". Certbot cannot ensure a safe TTLfor OCSP staple prefeching.").

Definition cert_a : string := "/etc/letsencrypt/live/a.example.org/cert.pem".
Definition cert_b : string := "/etc/letsencrypt/live/b.example.org/cert.pem".
Definition cert_c : string := "/etc/letsencrypt/live/c.example.org/cert.pem".

(** Three certificates tracked in the storage file, all last refreshed at
    time 0, and all on disk. *)
Definition three_certs_state (H : host) : state :=
  State (<[cert_a := Raw "a"]>
           (<[cert_b := Raw "b"]>
              (<[cert_c := Raw "c"]>
                 (<[_ocsp_store H := Dbm {["old key" := "old staple"]}]> ∅))))
        ∅ [] false None
        (Some [(cert_a, {| lastupdate := 0; chain_path := "chain a" |});
               (cert_b, {| lastupdate := 0; chain_path := "chain b" |});
               (cert_c, {| lastupdate := 0; chain_path := "chain c" |})])
        [] [] [].

(** The responder reports the second certificate revoked. *)
Definition b_revoked (cert : string) : (lib_exn + bool) * option string :=
  if String.eqb cert cert_b then (inr true, Some "revoked")
  else (inr false, Some "good").

Definition b_revoked_host : host :=
  scripted_host 100000 0 b_revoked (inr (Some (usec (48 * hour))))
    false None (Some (Dbm ∅)) None.

(** The final replace of [_write_to_dbm] fails. *)
Definition failing_replace_host : host :=
  scripted_host 100000 0 (fun _ => (inr false, Some "good"))
    (inr (Some (usec (48 * hour)))) true None (Some (Dbm ∅)) None.

(** Whether the responder was asked about [cert]. *)
Definition queried (cert : string) (s : state) : bool :=
  existsb (fun ev =>
             match ev with
             | EvOcspQuery c _ _ => String.eqb c cert
             | _ => false
             end)
          (trace s).

(** [__init__] in a later run of Certbot: an empty dictionary and a plugin
    storage that has not read its file yet; the files, the directories, the
    storage file and the configuration are those the earlier run left. *)
Definition new_run (s : state) : state :=
  State (files s) (dirs s) [] false None (storage_disk s)
        (cfg_pending s) (cfg_saved s) (trace s).

(** A host of plain_host's kind whose responder's answers are valid for 48
    hours. *)
Definition good_host : host := plain_host 100000 0 (usec (48 * hour)).

(** One round of the loop of [_ensure_ocsp_dirs]: the directory is created
    unless it is there. *)
Definition ensure_dir (p : string) (s : state) : state :=
  if bool_decide (p ∈ dirs s) then s
  else emit (EvMakedirs p) (set_dirs ({[p]} ∪ dirs s) s).

(** A world in which the certificate was refreshed at time 50000. *)
Definition fresh_state (H : host) : state :=
  State (<[example_cert := Raw "pem"]>
           (<[_ocsp_store H := Dbm {["old key" := "old staple"]}]> ∅))
        ∅ [] false None
        (Some [(example_cert, {| lastupdate := 50000; chain_path := example_chain |})])
        [] [] [].

(** A host without [bsddb] whose [dbm.ndbm] is built on GNU gdbm. *)
Definition gdbm_host : host := {|
  work_dir := "/var/lib/letsencrypt";
  OCSP_INTERNAL_TTL := 86400;
  time_time := fun _ => 1000%Q;
  utcnow := fun _ => 0%Z;
  str_datetime := fun _ => "<nextUpdate>";
  bsddb_importable := false;
  ndbm_library := Some "GNU gdbm";
  dbm_bytes := fun _ => "<dbm>";
  cert_digest := fun c => match c with Some (Raw d) => d | _ => "" end;
  get_apache_ocsp_struct := fun _ _ response => response;
  ocsp_revoked_by_paths := fun _ _ _ => (inr false, Some "response");
  ocsp_times := fun _ response =>
    match response with
    | Some _ => inr (Some (usec (48 * hour)))
    | None => inl (LibExn LPluginError "Unable to read the OCSP response")
    end;
  copy_fails := fun _ _ _ => false;
  dbm_open_fails := fun _ _ => false;
  replace_fails := fun _ _ _ => false;
  storage_save_fails := fun _ => false;
  choose_vhosts := fun _ domain => [{| vh_name := domain; ssl := true |}];
  enable_stapling_outcome := fun _ _ => None;
  apache_restart := fun _ => (None, Some (Dbm ∅));
  recovery_outcome := fun _ => None;
  config_save_outcome := fun _ => None
|}.

(** ** The TTL calculator and the refresh schedule *)

Lemma Qlt_bool_iff (a b : Q) : Qlt_bool a b = true <-> (a < b)%Q.
Proof. unfold Qlt_bool, Qlt. apply Z.ltb_lt. Qed.

Lemma ocsp_refresh_needed_eq (H : host) (lastupdate : Q) (s : state) :
  _ocsp_refresh_needed H lastupdate s =
  (Ok (Qlt_bool (lastupdate + OCSP_INTERNAL_TTL H) (time_time H s)), s).
Proof.
  unfold _ocsp_refresh_needed, bind, gets, ret.
  destruct (Qlt_bool _ _); reflexivity.
Qed.



Lemma ocsp_ttl_some (H : host) (nu : Z) (s : state) :
  _ocsp_ttl H (Some nu) s =
  let res_ttl := ((nu - utcnow H s) ÷ 1000000)%Z in
  if (31 * hour <? res_ttl)%Z then (Ok (res_ttl - 30 * hour)%Z, s)
  else
    (Raise (Exn PluginError
       (if (0 <? res_ttl)%Z then
          "OCSP response nextUpdate timestamp too " +:+
          "early: " +:+ str_datetime H nu +:+
          ". Certbot cannot ensure a safe TTL" +:+
          "for OCSP staple prefeching."
        else
          "OCSP response nextUpdate timestamp too " +:+
          "early: " +:+ str_datetime H nu)), s).
Proof.
  unfold _ocsp_ttl, bind, gets, ret, raise, hour. cbv zeta.
  destruct (Z.ltb_spec 0 ((nu - utcnow H s) ÷ 1000000));
    destruct (Z.ltb_spec 3600 ((nu - utcnow H s) ÷ 1000000 - 30 * 3600));
    destruct (Z.ltb_spec (31 * 3600) ((nu - utcnow H s) ÷ 1000000));
    try reflexivity; lia.
Qed.



(** C7, as the code has it: a nextUpdate exactly 30 hours and 1 minute ahead
    leaves a safe TTL of 60 seconds, which is not over one hour: the
    calculation fails with a [PluginError]. *)
Theorem ocsp_ttl_30h1m_fails (H : host) (s : state) :
  _ocsp_ttl H (Some (utcnow H s + usec (30 * hour + 60))%Z) s =
  (Raise (Exn PluginError
     ("OCSP response nextUpdate timestamp too " +:+
      "early: " +:+ str_datetime H (utcnow H s + usec (30 * hour + 60))%Z +:+
      ". Certbot cannot ensure a safe TTL" +:+
      "for OCSP staple prefeching.")), s).
Proof.
  rewrite ocsp_ttl_some.
  replace (utcnow H s + usec (30 * hour + 60) - utcnow H s)%Z
    with (usec (30 * hour + 60)) by lia.
  reflexivity.
Qed.

(** C7 as stated fails: 30 hours and 1 minute ahead, the calculation raises
    and returns no TTL. *)
Lemma ocsp_ttl_30h1m_raises :
  let H := plain_host 0 1000 0 in
  let nu := (utcnow H empty_state + usec (30 * hour + 60))%Z in
  (exists e, _ocsp_ttl H (Some nu) empty_state = (Raise e, empty_state)) /\
  ~ (exists ttl s', _ocsp_ttl H (Some nu) empty_state = (Ok ttl, s')).
Proof.
  split; [eexists; reflexivity|].
  intros [ttl [s' Heq]]. vm_compute in Heq. discriminate.
Qed.

(** ** The paths of the cache files *)

Lemma app_cons (c : ascii) (a b : string) : String c a +:+ b = String c (a +:+ b).
Proof. reflexivity. Qed.

Lemma app_nil_l (b : string) : "" +:+ b = b.
Proof. reflexivity. Qed.

Lemma app_assoc_s (a b c : string) : (a +:+ b) +:+ c = a +:+ (b +:+ c).
Proof. induction a as [|x a IH]; [reflexivity|]. rewrite !app_cons, IH. reflexivity. Qed.

Lemma app_nonempty_r (a b : string) : b <> "" -> a +:+ b <> "".
Proof. destruct a; [rewrite app_nil_l; auto | rewrite app_cons; discriminate]. Qed.

Lemma length_app_s (a b : string) :
  String.length (a +:+ b) = String.length a + String.length b.
Proof. induction a as [|x a IH]; [reflexivity|]. rewrite app_cons. simpl. lia. Qed.

Module os_path_facts.
Import os_path.

Lemma endswith_sep_app (a b : string) :
  b <> "" -> endswith_sep (a +:+ b) = endswith_sep b.
Proof.
  intros Hb. induction a as [|c a IH]; [reflexivity|].
  rewrite app_cons. simpl.
  destruct (a +:+ b) eqn:Hab; [|exact IH].
  exfalso. exact (app_nonempty_r a b Hb Hab).
Qed.

Lemma rsplit_app (a b : string) :
  fst (rsplit b) <> "" ->
  rsplit (a +:+ b) = (a +:+ fst (rsplit b), snd (rsplit b)).
Proof.
  intros Hb. induction a as [|c a IH].
  - rewrite !app_nil_l. destruct (rsplit b); reflexivity.
  - rewrite !app_cons. simpl. rewrite IH.
    destruct (a +:+ fst (rsplit b)) eqn:Hab; [|reflexivity].
    exfalso. exact (app_nonempty_r a _ Hb Hab).
Qed.

Lemma all_sep_app (a b : string) : all_sep b = false -> all_sep (a +:+ b) = false.
Proof.
  intros Hb. induction a as [|c a IH]; [exact Hb|].
  rewrite app_cons. simpl. rewrite IH. apply andb_false_r.
Qed.

Lemma rstrip_sep_app (a b : string) :
  rstrip_sep b <> "" -> rstrip_sep (a +:+ b) = a +:+ rstrip_sep b.
Proof.
  intros Hb. induction a as [|c a IH]; [reflexivity|].
  rewrite !app_cons. simpl. rewrite IH.
  destruct (a +:+ rstrip_sep b) eqn:Hab; [|reflexivity].
  exfalso. exact (app_nonempty_r a _ Hb Hab).
Qed.

Lemma join_relative (w x : string) :
  startswith_sep x = false -> join w x = with_sep w +:+ x.
Proof.
  intros Hx. unfold join, with_sep. rewrite Hx.
  destruct (String.eqb w "" || endswith_sep w); [reflexivity|].
  rewrite app_assoc_s. reflexivity.
Qed.

(** Joining a relative name to a directory that neither is empty nor ends
    with a separator. *)
Lemma join_dir (a d x : string) :
  d <> "" -> endswith_sep d = false -> startswith_sep x = false ->
  join (a +:+ d) x = a +:+ d +:+ "/" +:+ x.
Proof.
  intros Hd He Hx. unfold join. rewrite Hx.
  rewrite endswith_sep_app, He by exact Hd.
  destruct (String.eqb_spec (a +:+ d) "") as [Habs|_].
  - exfalso. exact (app_nonempty_r a d Hd Habs).
  - simpl. rewrite app_assoc_s. reflexivity.
Qed.

Lemma dirname_app (a d : string) :
  fst (rsplit d) <> "" -> all_sep (fst (rsplit d)) = false ->
  rstrip_sep (fst (rsplit d)) <> "" ->
  dirname (a +:+ d) = a +:+ rstrip_sep (fst (rsplit d)).
Proof.
  intros Hh Hs Hr. unfold dirname. rewrite rsplit_app by exact Hh.
  cbn [fst]. rewrite all_sep_app by exact Hs.
  destruct (String.eqb_spec (a +:+ fst (rsplit d)) "") as [Habs|_].
  - exfalso. exact (app_nonempty_r a _ Hh Habs).
  - simpl. apply rstrip_sep_app, Hr.
Qed.

Lemma basename_app (a d : string) :
  fst (rsplit d) <> "" -> basename (a +:+ d) = snd (rsplit d).
Proof. intros Hh. unfold basename. rewrite rsplit_app by exact Hh. reflexivity. Qed.

End os_path_facts.

Lemma hexlify_relative (d : string) : os_path.startswith_sep (hexlify d) = false.
Proof.
  destruct d as [|[b0 b1 b2 b3 b4 b5 b6 b7] r]; [reflexivity|].
  simpl. destruct b4, b5, b6, b7; reflexivity.
Qed.

Lemma strip_db_cons (c : ascii) (r : string) :
  strip_db (String c r) =
  if String.eqb (String c r) ".db" then "" else String c (strip_db r).
Proof. reflexivity. Qed.

Lemma strip_db_app (a b : string) :
  3 < String.length b -> strip_db (a +:+ b) = a +:+ strip_db b.
Proof.
  intros Hb. induction a as [|c a IH]; [reflexivity|].
  rewrite !app_cons, strip_db_cons, IH.
  destruct (String.eqb_spec (String c (a +:+ b)) ".db") as [Habs|_]; [|reflexivity].
  exfalso. apply (f_equal String.length) in Habs.
  simpl in Habs. rewrite length_app_s in Habs. lia.
Qed.

Section Paths.

Variable H : host.

Local Abbreviation base := (base H).
Local Abbreviation tmp_file := (tmp_file H).
Local Abbreviation workfile := (workfile H).

Lemma ocsp_store_eq : _ocsp_store H = base +:+ "ocsp/ocsp_cache.db".
Proof.
  unfold _ocsp_store, base.
  rewrite (os_path_facts.join_relative (work_dir H) "ocsp") by reflexivity.
  rewrite os_path_facts.join_dir by (reflexivity || discriminate).
  reflexivity.
Qed.

Lemma ocsp_work_eq : _ocsp_work H = base +:+ "ocsp_work/ocsp_cache.db".
Proof.
  unfold _ocsp_work, base.
  rewrite (os_path_facts.join_relative (work_dir H) "ocsp_work") by reflexivity.
  rewrite os_path_facts.join_dir by (reflexivity || discriminate).
  reflexivity.
Qed.

Lemma ocsp_work_dir_eq : os_path.dirname (_ocsp_work H) = base +:+ "ocsp_work".
Proof.
  rewrite ocsp_work_eq.
  rewrite os_path_facts.dirname_app by (reflexivity || discriminate).
  reflexivity.
Qed.

Lemma tmp_file_eq : tmp_file = base +:+ "ocsp_work/tmp_ocsp_cache.db".
Proof.
  unfold tmp_file. rewrite ocsp_work_dir_eq, ocsp_store_eq.
  rewrite os_path_facts.basename_app by discriminate.
  rewrite os_path_facts.join_dir by (reflexivity || discriminate).
  reflexivity.
Qed.

Lemma workfile_eq (d : string) : workfile d = base +:+ "ocsp_work/" +:+ hexlify d.
Proof.
  unfold workfile. rewrite ocsp_work_dir_eq.
  rewrite os_path_facts.join_dir
    by (reflexivity || discriminate || apply hexlify_relative).
  reflexivity.
Qed.

Lemma work_ne_store : _ocsp_work H <> _ocsp_store H.
Proof.
  rewrite ocsp_work_eq, ocsp_store_eq. intros Heq.
  apply String.app_inj in Heq. discriminate.
Qed.

Lemma tmp_ne_store : tmp_file <> _ocsp_store H.
Proof.
  rewrite tmp_file_eq, ocsp_store_eq. intros Heq.
  apply String.app_inj in Heq. discriminate.
Qed.

Lemma workfile_ne_store (d : string) : workfile d <> _ocsp_store H.
Proof.
  rewrite workfile_eq, ocsp_store_eq. intros Heq.
  apply String.app_inj in Heq. discriminate.
Qed.

(** Whichever DBM module is available, [DBMHandler] opens the temporary
    file itself. *)
Lemma dbm_filename_tmp : dbm_filename H tmp_file = tmp_file.
Proof.
  unfold dbm_filename. destruct (bsddb_importable H); [reflexivity|].
  rewrite tmp_file_eq. rewrite strip_db_app by (simpl; lia).
  rewrite app_assoc_s. reflexivity.
Qed.

End Paths.

(** ** Reasoning about methods *)

Lemma bind_ok {A B} (m : M A) (k : A -> M B) s a s' :
  m s = (Ok a, s') -> bind m k s = k a s'.
Proof. unfold bind. intros ->. reflexivity. Qed.

Lemma bind_raise {A B} (m : M A) (k : A -> M B) s e s' :
  m s = (Raise e, s') -> bind m k s = (Raise e, s').
Proof. unfold bind. intros ->. reflexivity. Qed.

Lemma bind_inv {A B} (m : M A) (k : A -> M B) s r s' :
  bind m k s = (r, s') ->
  (exists a s1, m s = (Ok a, s1) /\ k a s1 = (r, s')) \/
  (exists e, m s = (Raise e, s') /\ r = Raise e).
Proof.
  unfold bind. destruct (m s) as [[a|e] s1]; intros Heq.
  - left. eauto.
  - right. inversion Heq; subst. eauto.
Qed.

Section Frames.

Context {B : Type} (obs : state -> B).

Lemma preserves_ret {A} (a : A) : preserves obs (ret a).
Proof. intros s. reflexivity. Qed.

Lemma preserves_raise {A} (e : exn) : preserves obs (@raise A e).
Proof. intros s. reflexivity. Qed.

Lemma preserves_gets {A} (f : state -> A) : preserves obs (gets f).
Proof. intros s. reflexivity. Qed.

Lemma preserves_modify (f : state -> state) :
  (forall s, obs (f s) = obs s) -> preserves obs (modify f).
Proof. intros Hf s. apply Hf. Qed.

Lemma preserves_bind {A C} (m : M A) (k : A -> M C) :
  preserves obs m -> (forall a, preserves obs (k a)) -> preserves obs (bind m k).
Proof.
  intros Hm Hk s. unfold bind. specialize (Hm s).
  destruct (m s) as [[a|e] s1]; simpl in *; [|exact Hm].
  rewrite Hk. exact Hm.
Qed.

(** The same, when the continuation is only known to preserve [obs] for the
    values that [m] returns. *)
Lemma preserves_bind_val {A C} (m : M A) (k : A -> M C) :
  preserves obs m ->
  (forall s a s', m s = (Ok a, s') -> preserves obs (k a)) ->
  preserves obs (bind m k).
Proof.
  intros Hm Hk s. unfold bind. specialize (Hm s). specialize (Hk s).
  destruct (m s) as [[a|e] s1]; simpl in *; [|exact Hm].
  rewrite (Hk a s1 eq_refl). exact Hm.
Qed.

Lemma preserves_try_except {A} (m : M A) catches (h : exn -> M A) :
  preserves obs m -> (forall e, preserves obs (h e)) ->
  preserves obs (try_except m catches h).
Proof.
  intros Hm Hh s. unfold try_except. specialize (Hm s).
  destruct (m s) as [[a|e] s1]; simpl in *; [exact Hm|].
  destruct (catches e); [|exact Hm].
  rewrite Hh. exact Hm.
Qed.

Lemma preserves_try_finally {A} (m : M A) (f : M unit) :
  preserves obs m -> preserves obs f -> preserves obs (try_finally m f).
Proof.
  intros Hm Hf s. unfold try_finally. specialize (Hm s).
  destruct (m s) as [r s1]. specialize (Hf s1).
  destruct (f s1) as [[[]|e] s2]; simpl in *; congruence.
Qed.

Lemma preserves_for_each {A} (l : list A) (body : A -> M unit) :
  (forall x, preserves obs (body x)) -> preserves obs (for_each l body).
Proof.
  intros Hb. induction l as [|x l IH]; simpl.
  - apply preserves_ret.
  - apply preserves_bind; auto.
Qed.

Lemma preserves_on_failure_weaken {A} (m : M A) :
  preserves obs m -> preserves_on_failure obs m.
Proof. intros Hm s e s' Heq. specialize (Hm s). rewrite Heq in Hm. exact Hm. Qed.

Lemma preserves_on_failure_bind {A C} (m : M A) (k : A -> M C) :
  preserves obs m ->
  (forall s a s', m s = (Ok a, s') -> preserves_on_failure obs (k a)) ->
  preserves_on_failure obs (bind m k).
Proof.
  intros Hm Hk s e s' Heq. specialize (Hm s).
  apply bind_inv in Heq as [(a & s1 & Hms & Hks)|(e' & Hms & _)].
  - rewrite Hms in Hm. simpl in Hm. rewrite <- Hm. exact (Hk _ _ _ Hms _ _ _ Hks).
  - rewrite Hms in Hm. exact Hm.
Qed.

Lemma preserves_on_failure_try_finally {A} (m : M A) (f : M unit) :
  preserves_on_failure obs m -> preserves obs f -> never_raises f ->
  preserves_on_failure obs (try_finally m f).
Proof.
  intros Hm Hf Hnr s e s'. unfold try_finally.
  destruct (m s) as [r s1] eqn:Hms. specialize (Hf s1).
  destruct (f s1) as [[[]|e'] s2] eqn:Hfs; simpl in Hf.
  - intros Heq. inversion Heq; subst. rewrite Hf. exact (Hm _ _ _ Hms).
  - exfalso. exact (Hnr _ _ _ Hfs).
Qed.

End Frames.

Section Raises.

Context (C : exn -> Prop).

Lemma raises_only_ret {A} (a : A) : raises_only C (ret a).
Proof. intros s e s' Heq. discriminate. Qed.

Lemma raises_only_gets {A} (f : state -> A) : raises_only C (gets f).
Proof. intros s e s' Heq. discriminate. Qed.

Lemma raises_only_modify (f : state -> state) : raises_only C (modify f).
Proof. intros s e s' Heq. discriminate. Qed.

Lemma raises_only_raise {A} (e : exn) : C e -> raises_only C (@raise A e).
Proof. intros He s e' s' Heq. inversion Heq; subst. exact He. Qed.

Lemma raises_only_bind {A D} (m : M A) (k : A -> M D) :
  raises_only C m -> (forall a, raises_only C (k a)) -> raises_only C (bind m k).
Proof.
  intros Hm Hk s e s' Heq.
  apply bind_inv in Heq as [(a & s1 & Hms & Hks)|(e' & Hms & Hr)].
  - exact (Hk _ _ _ _ Hks).
  - inversion Hr; subst. exact (Hm _ _ _ Hms).
Qed.

Lemma raises_only_try_except {A} (m : M A) catches (h : exn -> M A) :
  raises_only (fun e => catches e = false -> C e) m ->
  (forall e, catches e = true -> raises_only C (h e)) ->
  raises_only C (try_except m catches h).
Proof.
  intros Hm Hh s e s'. unfold try_except.
  destruct (m s) as [[a|e'] s1] eqn:Hms; [discriminate|].
  destruct (catches e') eqn:Hc.
  - intros Heq. exact (Hh _ Hc _ _ _ Heq).
  - intros Heq. inversion Heq; subst. exact (Hm _ _ _ Hms Hc).
Qed.

Lemma raises_only_try_finally {A} (m : M A) (f : M unit) :
  raises_only C m -> raises_only C f -> raises_only C (try_finally m f).
Proof.
  intros Hm Hf s e s'. unfold try_finally.
  destruct (m s) as [r s1] eqn:Hms.
  destruct (f s1) as [[[]|e'] s2] eqn:Hfs; intros Heq; inversion Heq; subst.
  - exact (Hm _ _ _ Hms).
  - exact (Hf _ _ _ Hfs).
Qed.

Lemma raises_only_for_each {A} (l : list A) (body : A -> M unit) :
  (forall x, raises_only C (body x)) -> raises_only C (for_each l body).
Proof.
  intros Hb. induction l as [|x l IH]; simpl.
  - apply raises_only_ret.
  - apply raises_only_bind; auto.
Qed.

End Raises.

Lemma raises_only_weaken {A} (C D : exn -> Prop) (m : M A) :
  (forall e, C e -> D e) -> raises_only C m -> raises_only D m.
Proof. intros Himp Hm s e s' Heq. exact (Himp _ (Hm _ _ _ Heq)). Qed.

(** ** What each operation leaves alone *)

(** Unfolds an operation written with [match] on the world and settles the
    resulting cases of a frame property. *)
Ltac frame_cases :=
  try intros ?s; unfold file_at, mixin_state;
  repeat case_match; simpl;
  rewrite ?lookup_insert_ne, ?lookup_delete_ne by congruence;
  try reflexivity; try congruence.

Section FileFrames.

Variable H : host.
Variable p : string.

Lemma log_file lvl msg : preserves (file_at p) (log lvl msg).
Proof. frame_cases. Qed.

Lemma isdir_file q : preserves (file_at p) (isdir q).
Proof. frame_cases. Qed.

Lemma isfile_file q : preserves (file_at p) (isfile q).
Proof. frame_cases. Qed.

Lemma makedirs_file q : preserves (file_at p) (filesystem_makedirs q).
Proof. frame_cases. Qed.

Lemma read_bytes_file q : preserves (file_at p) (read_bytes H q).
Proof. unfold read_bytes. frame_cases. Qed.

Lemma sleep_file n : preserves (file_at p) (sleep n).
Proof. frame_cases. Qed.

Lemma certid_sha1_file c : preserves (file_at p) (certid_sha1 H c).
Proof. frame_cases. Qed.

Lemma certid_sha1_hex_file c : preserves (file_at p) (certid_sha1_hex H c).
Proof. frame_cases. Qed.

Lemma ocsp_next_update_file w : preserves (file_at p) (ocsp_next_update H w).
Proof. unfold ocsp_next_update. frame_cases. Qed.

Lemma ocsp_ttl_file nu : preserves (file_at p) (_ocsp_ttl H nu).
Proof. intros s. destruct nu as [nu|]; [rewrite ocsp_ttl_some; cbv zeta|]; frame_cases. Qed.

Lemma safe_copy_file src dst : dst <> p -> preserves (file_at p) (safe_copy H src dst).
Proof. intros Hne. unfold safe_copy. frame_cases. Qed.

Lemma os_remove_file q : q <> p -> preserves (file_at p) (os_remove q).
Proof. intros Hne. unfold os_remove. frame_cases. Qed.

Lemma ocsp_revoked_file c ch rf :
  rf <> p -> preserves (file_at p) (ocsp_revoked H c ch rf).
Proof. intros Hne. unfold ocsp_revoked. frame_cases. Qed.

Lemma DBMHandler_enter_file f : preserves (file_at p) (DBMHandler_enter H f).
Proof. unfold DBMHandler_enter. frame_cases. Qed.

Lemma db_setitem_file db k v : db <> p -> preserves (file_at p) (db_setitem db k v).
Proof. intros Hne. unfold db_setitem. frame_cases. Qed.

Lemma replace_file src dst :
  src <> p -> dst <> p -> preserves (file_at p) (filesystem_replace H src dst).
Proof. intros Hs Hd. unfold filesystem_replace. frame_cases. Qed.

(** A failed replace changes no file. *)
Lemma replace_file_on_failure src dst :
  preserves_on_failure (file_at p) (filesystem_replace H src dst).
Proof.
  intros s e s'. unfold filesystem_replace, file_at.
  repeat case_match; intros Heq; inversion Heq; subst; reflexivity.
Qed.

Lemma super_restart_file : _ocsp_store H <> p -> preserves (file_at p) (super_restart H).
Proof. intros Hne. unfold super_restart. frame_cases. Qed.

Lemma storage_initialize_file : preserves (file_at p) storage_initialize.
Proof. unfold storage_initialize, modify. frame_cases. Qed.

Lemma storage_put_file : preserves (file_at p) storage_put.
Proof.
  apply preserves_bind; [apply storage_initialize_file|].
  intros _. apply preserves_modify. reflexivity.
Qed.

Lemma storage_save_file : preserves (file_at p) (storage_save H).
Proof. unfold storage_save. frame_cases. Qed.

Lemma ensure_ocsp_dirs_file : preserves (file_at p) (_ensure_ocsp_dirs H).
Proof.
  apply preserves_for_each. intros x.
  apply preserves_bind; [apply isdir_file|].
  intros []; [apply makedirs_file || apply preserves_ret ..].
Qed.

End FileFrames.

(** ** C1: a failed refresh leaves the active store as it was *)

Lemma certid_sha1_hex_eq (H : host) (cert : string) (s : state) :
  certid_sha1_hex H cert s = (Ok (hexlify (cert_digest H (files s !! cert))), s).
Proof. reflexivity. Qed.

Lemma DBMHandler_enter_value (H : host) (f db : string) (s s' : state) :
  DBMHandler_enter H f s = (Ok db, s') -> db = dbm_filename H f /\ s' = s.
Proof.
  unfold DBMHandler_enter. repeat case_match; intros Heq; inversion Heq; auto.
Qed.

Lemma os_remove_raises (q : string) :
  raises_only (fun e => is_OSError e = true) (os_remove q).
Proof.
  intros s e s'. unfold os_remove.
  case_match; intros Heq; inversion Heq; reflexivity.
Qed.

(** The [finally] clause of [_ocsp_refresh] never raises. *)
Lemma remove_workfile_never_raises (q : string) :
  never_raises (try_except (os_remove q) is_OSError (fun _ => ret tt)).
Proof.
  apply raises_only_try_except.
  - eapply raises_only_weaken; [|apply os_remove_raises].
    simpl. intros e He Hf. congruence.
  - intros e _. apply raises_only_ret.
Qed.

Section RefreshFrame.

Variable H : host.

Lemma ocsp_response_dbm_file p w : preserves (file_at p) (_ocsp_response_dbm H w).
Proof.
  unfold _ocsp_response_dbm.
  apply preserves_bind; [apply ocsp_next_update_file|]. intros nu.
  apply preserves_bind; [apply ocsp_ttl_file|]. intros ttl.
  apply preserves_bind; [apply read_bytes_file|]. intros response.
  apply preserves_gets.
Qed.

(** The atomic update protocol: the copy and the write work on the
    temporary file; only the final replace touches the active store, and it
    is the last step. *)
Lemma write_to_dbm_store_on_failure key value :
  preserves_on_failure (file_at (_ocsp_store H))
    (_write_to_dbm H (_ocsp_store H) key value).
Proof.
  unfold _write_to_dbm. change (os_path.join _ _) with (tmp_file H).
  apply preserves_on_failure_bind.
  { apply safe_copy_file, tmp_ne_store. }
  intros _ _ _ _.
  apply preserves_on_failure_bind; [|intros; apply replace_file_on_failure].
  apply preserves_bind_val; [apply DBMHandler_enter_file|].
  intros s db s' Hdb. apply DBMHandler_enter_value in Hdb as [-> _].
  rewrite dbm_filename_tmp.
  apply preserves_try_finally; [|apply preserves_ret].
  apply db_setitem_file, tmp_ne_store.
Qed.

End RefreshFrame.

(** C1: whenever [_ocsp_refresh] raises, whatever the reason (the
    certificate file is missing, the certificate is reported revoked, no
    response could be fetched, no TTL could be computed, the store could not
    be copied, opened or replaced), the file at the active store path is
    what it was before the call: the store is only written by the final
    replace, after every other step has succeeded. *)
Theorem refresh_failure_keeps_store (H : host) (cert chain : string)
    (s s' : state) (e : exn) :
  _ocsp_refresh H cert chain s = (Raise e, s') ->
  files s' !! _ocsp_store H = files s !! _ocsp_store H.
Proof.
  revert s e s'.
  change (preserves_on_failure (file_at (_ocsp_store H)) (_ocsp_refresh H cert chain)).
  unfold _ocsp_refresh.
  apply preserves_on_failure_bind; [apply ensure_ocsp_dirs_file|]. intros _ _ _ _.
  apply preserves_on_failure_bind; [apply isfile_file|]. intros _ present _ _.
  destruct present; simpl.
  2: { apply preserves_on_failure_weaken, preserves_raise. }
  apply preserves_on_failure_bind; [apply certid_sha1_hex_file|].
  intros s hex s' Hhex. rewrite certid_sha1_hex_eq in Hhex.
  inversion Hhex; subst s' hex. clear Hhex.
  change (os_path.join _ _) with (workfile H (cert_digest H (files s !! cert))).
  apply preserves_on_failure_try_finally.
  - (* the body of the [try] *)
    apply preserves_on_failure_bind.
    { apply ocsp_revoked_file, workfile_ne_store. }
    intros _ revoked _ _. destruct revoked.
    + apply preserves_on_failure_weaken.
      apply preserves_bind; [apply log_file|]. intros _. apply preserves_raise.
    + apply preserves_on_failure_bind; [apply certid_sha1_file|]. intros _ sha _ _.
      apply preserves_on_failure_bind; [apply ocsp_response_dbm_file|].
      intros _ value _ _. apply write_to_dbm_store_on_failure.
  - (* the [finally] clause removes the scratch file only ... *)
    apply preserves_try_except; [|intros; apply preserves_ret].
    apply os_remove_file, workfile_ne_store.
  - (* ... and cannot raise *)
    apply remove_workfile_never_raises.
Qed.

(** A response whose nextUpdate is 30 hours and 1 minute ahead gives no TTL:
    the refresh fails and the old staple is still in the active store. *)
Lemma refresh_failure_keeps_store_witness :
  let H := plain_host 0 0 (usec (30 * hour + 60)) in
  exists e s',
    _ocsp_refresh H example_cert example_chain (stapled_state H) = (Raise e, s') /\
    files s' !! _ocsp_store H = files (stapled_state H) !! _ocsp_store H.
Proof.
  intros H. eexists _, _. split; [vm_compute; reflexivity|].
  eapply (refresh_failure_keeps_store H example_cert example_chain).
  vm_compute; reflexivity.
Defined.

(** ** C8: which failures of a refresh are eviction errors *)

Lemma of_lib_not_eviction (e : lib_exn) : not_eviction (of_lib e).
Proof. destruct e as [[] msg]; reflexivity. Qed.

(** Settles [raises_only] for an operation written with [match] on the
    world. *)
Ltac raise_cases :=
  try intros ?s ?e ?s'; repeat case_match;
  intros ?Heq; inversion Heq; subst;
  first [reflexivity | apply of_lib_not_eviction | discriminate].

Lemma try_finally_fst {A} (m : M A) (f : M unit) (s : state) :
  never_raises f -> fst (try_finally m f s) = fst (m s).
Proof.
  intros Hnr. unfold try_finally. destruct (m s) as [r s1].
  destruct (f s1) as [[[]|e] s2] eqn:Hf; [reflexivity|].
  exfalso. exact (Hnr _ _ _ Hf).
Qed.

Lemma ensure_ocsp_dirs_ok (H : host) (s : state) :
  _ensure_ocsp_dirs H s = (Ok tt, snd (_ensure_ocsp_dirs H s)).
Proof.
  unfold _ensure_ocsp_dirs, for_each, bind, isdir, gets, ret, filesystem_makedirs, modify.
  repeat (case_match; simpl in *; simplify_eq); reflexivity.
Qed.

Lemma ensure_ocsp_dirs_files (H : host) (s : state) :
  files (snd (_ensure_ocsp_dirs H s)) = files s.
Proof.
  unfold _ensure_ocsp_dirs, for_each, bind, isdir, gets, ret, filesystem_makedirs, modify.
  repeat (case_match; simpl in *; simplify_eq); reflexivity.
Qed.

Section RefreshErrors.

Variable H : host.

Lemma ocsp_ttl_raises nu : raises_only not_eviction (_ocsp_ttl H nu).
Proof.
  intros s e s'. destruct nu as [nu|]; [rewrite ocsp_ttl_some; cbv zeta|];
    unfold _ocsp_ttl, raise; raise_cases.
Qed.

Lemma ocsp_response_dbm_raises w : raises_only not_eviction (_ocsp_response_dbm H w).
Proof.
  unfold _ocsp_response_dbm.
  apply raises_only_bind; [unfold ocsp_next_update; raise_cases|]. intros nu.
  apply raises_only_bind; [apply ocsp_ttl_raises|]. intros ttl.
  apply raises_only_bind; [unfold read_bytes; raise_cases|]. intros response.
  apply raises_only_gets.
Qed.

Lemma write_to_dbm_raises f key value :
  raises_only not_eviction (_write_to_dbm H f key value).
Proof.
  unfold _write_to_dbm.
  apply raises_only_bind; [unfold safe_copy; raise_cases|]. intros _.
  apply raises_only_bind; [|intros _; unfold filesystem_replace; raise_cases].
  apply raises_only_bind; [unfold DBMHandler_enter; raise_cases|]. intros db.
  apply raises_only_try_finally; [unfold db_setitem; raise_cases|].
  apply raises_only_ret.
Qed.

(** The steps of [_ocsp_refresh] that follow a "not revoked" answer. *)
Lemma install_raises cert w :
  raises_only not_eviction
    (cert_sha <- certid_sha1 H cert ;;
     value <- _ocsp_response_dbm H w ;;
     _write_to_dbm H (_ocsp_store H) cert_sha value).
Proof.
  apply raises_only_bind; [apply raises_only_gets|]. intros sha.
  apply raises_only_bind; [apply ocsp_response_dbm_raises|]. intros value.
  apply write_to_dbm_raises.
Qed.

(** The outcome of [_ocsp_refresh], step by step: [s1] is the world once
    the directories exist, in which the responder is asked. *)
Lemma ocsp_refresh_outcome cert chain s :
  let s1 := snd (_ensure_ocsp_dirs H s) in
  fst (_ocsp_refresh H cert chain s) =
  match files s !! cert with
  | None =>
      Raise (Exn OCSPCertificateError "Certificate has been removed from the system.")
  | Some _ =>
      match fst (ocsp_revoked_by_paths H s1 cert chain) with
      | inl e => Raise (of_lib e)
      | inr true => Raise (Exn OCSPCertificateError "Certificate has been revoked.")
      | inr false =>
          let w := workfile H (cert_digest H (files s !! cert)) in
          fst ((cert_sha <- certid_sha1 H cert ;;
                value <- _ocsp_response_dbm H w ;;
                _write_to_dbm H (_ocsp_store H) cert_sha value)
                 (snd (ocsp_revoked H cert chain w s1)))
      end
  end.
Proof.
  intros s1.
  assert (Hf1 : files s1 = files s) by apply ensure_ocsp_dirs_files.
  unfold _ocsp_refresh.
  rewrite (bind_ok _ _ _ _ _ (ensure_ocsp_dirs_ok H s)). fold s1.
  unfold bind at 1, isfile at 1, gets at 1. rewrite Hf1.
  destruct (files s !! cert) as [c|] eqn:Hc; simpl; [|reflexivity].
  unfold bind at 1. rewrite certid_sha1_hex_eq, Hf1, Hc.
  fold (workfile H (cert_digest H (Some c))).
  rewrite try_finally_fst by apply remove_workfile_never_raises.
  unfold bind at 1, ocsp_revoked.
  destruct (ocsp_revoked_by_paths H s1 cert chain) as [[e|[]] written]; reflexivity.
Qed.

End RefreshErrors.


(** ** A refresh touches files only *)

Section MixinFrames.

Variable H : host.

Lemma ensure_ocsp_dirs_mixin : preserves mixin_state (_ensure_ocsp_dirs H).
Proof.
  apply preserves_for_each. intros x.
  apply preserves_bind; [frame_cases|].
  intros []; [unfold filesystem_makedirs, modify; frame_cases || apply preserves_ret ..].
Qed.

Lemma ocsp_ttl_mixin nu : preserves mixin_state (_ocsp_ttl H nu).
Proof. intros s. destruct nu as [nu|]; [rewrite ocsp_ttl_some; cbv zeta|]; frame_cases. Qed.

Lemma ocsp_response_dbm_mixin w : preserves mixin_state (_ocsp_response_dbm H w).
Proof.
  unfold _ocsp_response_dbm.
  apply preserves_bind; [unfold ocsp_next_update; frame_cases|]. intros nu.
  apply preserves_bind; [apply ocsp_ttl_mixin|]. intros ttl.
  apply preserves_bind; [unfold read_bytes; frame_cases|]. intros response.
  apply preserves_gets.
Qed.

Lemma write_to_dbm_mixin f key value : preserves mixin_state (_write_to_dbm H f key value).
Proof.
  unfold _write_to_dbm.
  apply preserves_bind; [unfold safe_copy; frame_cases|]. intros _.
  apply preserves_bind; [|intros _; unfold filesystem_replace; frame_cases].
  apply preserves_bind; [unfold DBMHandler_enter; frame_cases|]. intros db.
  apply preserves_try_finally; [unfold db_setitem; frame_cases|apply preserves_ret].
Qed.

Lemma ocsp_refresh_mixin cert chain : preserves mixin_state (_ocsp_refresh H cert chain).
Proof.
  unfold _ocsp_refresh.
  apply preserves_bind; [apply ensure_ocsp_dirs_mixin|]. intros _.
  apply preserves_bind; [frame_cases|]. intros present.
  destruct present; simpl; [|apply preserves_raise].
  apply preserves_bind; [frame_cases|]. intros hex.
  apply preserves_try_finally.
  - apply preserves_bind; [unfold ocsp_revoked; frame_cases|]. intros [].
    + apply preserves_bind; [frame_cases|]. intros _. apply preserves_raise.
    + apply preserves_bind; [frame_cases|]. intros sha.
      apply preserves_bind; [apply ocsp_response_dbm_mixin|]. intros value.
      apply write_to_dbm_mixin.
  - apply preserves_try_except; [unfold os_remove; frame_cases|].
    intros; apply preserves_ret.
Qed.

Lemma ocsp_refresh_prefetch cert chain s :
  ocsp_prefetch (snd (_ocsp_refresh H cert chain s)) = ocsp_prefetch s.
Proof.
  pose proof (ocsp_refresh_mixin cert chain s) as Hm.
  unfold mixin_state in Hm. congruence.
Qed.

Lemma ocsp_refresh_storage_disk cert chain s :
  storage_disk (snd (_ocsp_refresh H cert chain s)) = storage_disk s.
Proof.
  pose proof (ocsp_refresh_mixin cert chain s) as Hm.
  unfold mixin_state in Hm. congruence.
Qed.

End MixinFrames.

(** ** C9: eviction puts the dictionary but does not save it *)

Lemma dict_get_del_eq (k : string) (d : dict) : dict_get k (dict_del k d) = None.
Proof.
  induction d as [|[k' v] d IH]; [reflexivity|]. simpl.
  destruct (String.eqb k k') eqn:Hk; [exact IH|]. simpl. rewrite Hk. exact IH.
Qed.

Lemma dict_get_del_ne (k k' : string) (d : dict) :
  k <> k' -> dict_get k' (dict_del k d) = dict_get k' d.
Proof.
  intros Hne. induction d as [|[k0 v] d IH]; [reflexivity|]. simpl.
  destruct (String.eqb_spec k k0) as [->|Hk0]; simpl.
  - destruct (String.eqb_spec k' k0) as [->|_]; [congruence|exact IH].
  - destruct (String.eqb k' k0); [reflexivity|exact IH].
Qed.

Lemma dict_get_set_eq (k : string) (v : prefetch_entry) (d : dict) :
  dict_get k (dict_set k v d) = Some v.
Proof.
  induction d as [|[k' v'] d IH]; simpl.
  - rewrite String.eqb_refl. reflexivity.
  - destruct (String.eqb k k') eqn:Hk; simpl; rewrite Hk; [reflexivity|exact IH].
Qed.

Lemma dict_get_set_ne (k k' : string) (v : prefetch_entry) (d : dict) :
  k <> k' -> dict_get k' (dict_set k v d) = dict_get k' d.
Proof.
  intros Hne. induction d as [|[k0 v0] d IH]; simpl.
  - destruct (String.eqb_spec k' k); [congruence|reflexivity].
  - destruct (String.eqb_spec k k0) as [->|Hk0]; simpl.
    + destruct (String.eqb_spec k' k0) as [->|_]; [congruence|reflexivity].
    + destruct (String.eqb k' k0); [reflexivity|exact IH].
Qed.

(** What [storage.put] leaves: the storage holds the mixin's dictionary,
    the storage file is as it was, and the put is the only new effect. *)
Lemma storage_put_eq (s : state) :
  exists s',
    storage_put s = (Ok tt, s') /\
    files s' = files s /\
    ocsp_prefetch s' = ocsp_prefetch s /\
    storage_initialized s' = true /\
    storage_data s' = Some Shared /\
    storage_disk s' = storage_disk s /\
    cfg_pending s' = cfg_pending s /\ cfg_saved s' = cfg_saved s /\
    trace s' = trace s ++ [EvStoragePut (ocsp_prefetch s)].
Proof.
  unfold storage_put, storage_initialize, bind, modify.
  destruct (storage_initialized s); eexists; (split; [reflexivity|]);
    simpl; repeat split; reflexivity.
Qed.

(** What [_ocsp_prefetch_remove] does, by whether the certificate is
    tracked. *)
Lemma prefetch_remove_cases (H : host) (cert : string) (s : state) :
  match dict_get cert (ocsp_prefetch s) with
  | Some _ =>
      let d := dict_del cert (ocsp_prefetch s) in
      exists s',
        _ocsp_prefetch_remove cert s = (Ok tt, s') /\
        ocsp_prefetch s' = d /\
        dict_get cert d = None /\
        trace s' = trace s ++ [EvStoragePut d] /\
        storage_value s' = Some d /\
        storage_disk s' = storage_disk s /\
        (storage_save_fails H s' = false ->
         exists s'', storage_save H s' = (Ok tt, s'') /\ storage_disk s'' = Some d)
  | None => _ocsp_prefetch_remove cert s = (Raise (Exn KeyError cert), s)
  end.
Proof.
  unfold _ocsp_prefetch_remove.
  destruct (dict_get cert (ocsp_prefetch s)) as [pf|] eqn:Hget.
  - cbv zeta. unfold bind at 1. unfold bind at 1. unfold gets at 1. rewrite Hget.
    unfold modify at 1.
    destruct (storage_put_eq (set_ocsp_prefetch (dict_del cert (ocsp_prefetch s)) s))
      as (s' & Hput & Hfiles & Hpre & Hinit & Hdata & Hdisk & _ & _ & Htrace).
    exists s'. rewrite Hput. simpl in *.
    split; [reflexivity|]. split; [exact Hpre|].
    split; [apply dict_get_del_eq|]. split; [exact Htrace|].
    split; [unfold storage_value; rewrite Hdata, Hpre; reflexivity|].
    split; [exact Hdisk|].
    intros Hok. unfold storage_save. rewrite Hinit, Hok. simpl.
    eexists. split; [reflexivity|]. simpl.
    unfold storage_value. rewrite Hdata, Hpre. reflexivity.
  - unfold bind at 1. unfold bind at 1. unfold gets at 1. rewrite Hget. reflexivity.
Qed.

(** C9: evicting a tracked certificate removes its entry from the
    dictionary in memory and puts the dictionary into the plugin storage;
    that put is the only effect, [save()] is not called, and the stored
    state on disk is as it was.  The removal reaches the disk with the next
    [save()] that succeeds.  By contrast [_ocsp_prefetch_save], which follows
    a refresh, ends with a [save()].  Evicting an untracked certificate
    raises [KeyError] and changes nothing. *)
Theorem prefetch_remove_puts_without_save (H : host) (cert : string) (s : state) :
  match dict_get cert (ocsp_prefetch s) with
  | Some _ =>
      let d := dict_del cert (ocsp_prefetch s) in
      exists s',
        _ocsp_prefetch_remove cert s = (Ok tt, s') /\
        ocsp_prefetch s' = d /\
        dict_get cert d = None /\
        trace s' = trace s ++ [EvStoragePut d] /\
        storage_value s' = Some d /\
        storage_disk s' = storage_disk s /\
        (storage_save_fails H s' = false ->
         exists s'', storage_save H s' = (Ok tt, s'') /\ storage_disk s'' = Some d)
  | None => _ocsp_prefetch_remove cert s = (Raise (Exn KeyError cert), s)
  end /\
  (forall chain s1,
     _ocsp_prefetch_save H cert chain s = (Ok tt, s1) ->
     exists d, trace s1 = trace s ++ [EvStoragePut d; EvStorageSave true] /\
               storage_disk s1 = Some d).
Proof.
  split; [apply prefetch_remove_cases|].
  intros chain s1. unfold _ocsp_prefetch_save.
  unfold bind at 1, gets at 1. unfold bind at 1, modify at 1.
  set (s0 := set_ocsp_prefetch _ s).
  destruct (storage_put_eq s0)
    as (s' & Hput & _ & Hpre & Hinit & Hdata & _ & _ & _ & Htrace).
  rewrite (bind_ok _ _ _ _ _ Hput). unfold storage_save. rewrite Hinit. simpl.
  destruct (storage_save_fails H s'); intros Heq; inversion Heq; subst.
  exists (ocsp_prefetch s0). simpl. rewrite Htrace. simpl.
  split; [rewrite <- app_assoc; reflexivity|].
  unfold storage_value. rewrite Hdata, Hpre. reflexivity.
Qed.

(** ** C2: the restart guard *)

Lemma restart_load_ok (s : state) :
  restart_load s = (Ok tt, snd (restart_load s)).
Proof.
  unfold restart_load, _ocsp_prefetch_fetch_state, try_except, storage_fetch,
    storage_initialize, bind, gets, modify, ret, raise.
  repeat (case_match; simpl in *; simplify_eq); reflexivity.
Qed.

Section RestartGuard.

Variable H : host.

Lemma backup_db_eq (s : state) :
  let sd := snd (_ensure_ocsp_dirs H s) in
  _ocsp_prefetch_backup_db H s =
  match files s !! _ocsp_store H with
  | Some c =>
      if copy_fails H sd (_ocsp_store H) (_ocsp_work H) then
        (Ok tt, emit backup_failed
                  (emit (EvCopy (_ocsp_store H) (_ocsp_work H) false) sd))
      else
        (Ok tt, emit (EvCopy (_ocsp_store H) (_ocsp_work H) true)
                  (set_files (<[_ocsp_work H := c]> (files sd)) sd))
  | None =>
      (Ok tt, emit backup_failed
                (emit (EvCopy (_ocsp_store H) (_ocsp_work H) false) sd))
  end.
Proof.
  intros sd. unfold _ocsp_prefetch_backup_db.
  rewrite (bind_ok _ _ _ _ _ (ensure_ocsp_dirs_ok H s)). fold sd.
  unfold try_except, safe_copy.
  replace (files sd) with (files s) by (symmetry; apply ensure_ocsp_dirs_files).
  destruct (files s !! _ocsp_store H); [|reflexivity].
  destruct (copy_fails H sd _ _); reflexivity.
Qed.

Lemma restore_db_eq (s : state) :
  let sd := snd (_ensure_ocsp_dirs H s) in
  _ocsp_prefetch_restore_db H s =
  match files s !! _ocsp_work H with
  | Some c =>
      if replace_fails H sd (_ocsp_work H) (_ocsp_store H) then
        (Ok tt, emit restore_failed
                  (emit (EvReplace (_ocsp_work H) (_ocsp_store H) false) sd))
      else
        (Ok tt, emit (EvReplace (_ocsp_work H) (_ocsp_store H) true)
                  (set_files (<[_ocsp_store H := c]> (delete (_ocsp_work H) (files sd))) sd))
  | None =>
      (Ok tt, emit restore_failed
                (emit (EvReplace (_ocsp_work H) (_ocsp_store H) false) sd))
  end.
Proof.
  intros sd. unfold _ocsp_prefetch_restore_db.
  rewrite (bind_ok _ _ _ _ _ (ensure_ocsp_dirs_ok H s)). fold sd.
  unfold try_except, filesystem_replace.
  replace (files sd) with (files s) by (symmetry; apply ensure_ocsp_dirs_files).
  destruct (files s !! _ocsp_work H); [|reflexivity].
  destruct (replace_fails H sd _ _); reflexivity.
Qed.

Lemma backup_db_prefetch (s : state) :
  ocsp_prefetch (snd (_ocsp_prefetch_backup_db H s)) = ocsp_prefetch s.
Proof.
  pose proof (ensure_ocsp_dirs_mixin H s) as Hm. unfold mixin_state in Hm.
  rewrite backup_db_eq. cbv zeta.
  repeat case_match; simpl; congruence.
Qed.

Lemma super_restart_prefetch (s : state) :
  ocsp_prefetch (snd (super_restart H s)) = ocsp_prefetch s.
Proof. unfold super_restart. repeat case_match; reflexivity. Qed.

(** With certificates tracked, [restart] is the backup, the restart of the
    base class and the restore, in this order, and its outcome is that of
    the restart of the base class. *)
Lemma restart_tracked (s : state) :
  let s0 := snd (restart_load s) in
  let s1 := snd (_ocsp_prefetch_backup_db H s0) in
  let s2 := snd (super_restart H s1) in
  let s3 := snd (_ocsp_prefetch_restore_db H s2) in
  dict_nonempty (ocsp_prefetch s0) = true ->
  _ocsp_prefetch_backup_db H s0 = (Ok tt, s1) /\
  _ocsp_prefetch_restore_db H s2 = (Ok tt, s3) /\
  restart H s = (fst (super_restart H s1), s3).
Proof.
  intros s0 s1 s2 s3 Htracked.
  assert (Hb : _ocsp_prefetch_backup_db H s0 = (Ok tt, s1)).
  { unfold s1. rewrite backup_db_eq. cbv zeta. repeat case_match; reflexivity. }
  assert (Hr : _ocsp_prefetch_restore_db H s2 = (Ok tt, s3)).
  { unfold s3. rewrite restore_db_eq. cbv zeta. repeat case_match; reflexivity. }
  split; [exact Hb|]. split; [exact Hr|].
  unfold restart.
  rewrite (bind_ok _ _ _ _ _ (restart_load_ok s)). fold s0.
  unfold bind at 1. unfold bind at 1, gets at 1. rewrite Htracked, Hb.
  unfold try_finally. fold s2.
  destruct (super_restart H s1) as [r s2'] eqn:Hs. simpl in s2. subst s2.
  unfold bind, gets.
  replace (ocsp_prefetch s2') with (ocsp_prefetch s0).
  - rewrite Htracked, Hr. reflexivity.
  - pose proof (super_restart_prefetch s1) as H1. rewrite Hs in H1. simpl in H1.
    rewrite H1. unfold s1. rewrite backup_db_prefetch. reflexivity.
Qed.

End RestartGuard.


Lemma tracked_state_is_tracked :
  dict_nonempty
    (ocsp_prefetch (snd (restart_load (tracked_state deleting_host)))) = true.
Proof. vm_compute; reflexivity. Qed.


Example restart_deletes_the_store :
  files (snd (super_restart deleting_host (tracked_state deleting_host)))
    !! _ocsp_store deleting_host = None.
Proof. vm_compute; reflexivity. Qed.

Example restart_guard_restores_the_store :
  files (snd (restart deleting_host (tracked_state deleting_host)))
    !! _ocsp_store deleting_host = Some (Dbm {["old key" := "old staple"]}).
Proof. vm_compute; reflexivity. Qed.

(** ** C5: enabling, and rolling back *)

(** What survives the process: the storage file and the configuration. *)
Ltac from_mixin Hm :=
  let s := fresh "s" in
  let Hs := fresh "Hs" in
  intros s; pose proof (Hm s) as Hs; unfold mixin_state in Hs; congruence.

Section Enable.

Variable H : host.

Lemma compatibility_cases (s : state) :
  _ensure_ocsp_prefetch_compatibility H s = (Ok tt, s) \/
  exists msg,
    _ensure_ocsp_prefetch_compatibility H s = (Raise (Exn NotSupportedError msg), s).
Proof.
  unfold _ensure_ocsp_prefetch_compatibility.
  destruct (bsddb_importable H); [left; reflexivity|].
  destruct (ndbm_library H) as [lib|]; [|right; eexists; reflexivity].
  destruct (negb (String.eqb lib "Berkeley DB")); [right; eexists|left]; reflexivity.
Qed.

Lemma restart_load_disk : preserves storage_disk restart_load.
Proof.
  intros s.
  unfold restart_load, _ocsp_prefetch_fetch_state, try_except, storage_fetch,
    storage_initialize, bind, gets, modify, ret, raise.
  repeat (case_match; simpl in *; simplify_eq); reflexivity.
Qed.

Lemma restart_load_cfg :
  preserves (fun s => (cfg_pending s, cfg_saved s)) restart_load.
Proof.
  intros s.
  unfold restart_load, _ocsp_prefetch_fetch_state, try_except, storage_fetch,
    storage_initialize, bind, gets, modify, ret, raise.
  repeat (case_match; simpl in *; simplify_eq); reflexivity.
Qed.

Lemma backup_db_mixin : preserves mixin_state (_ocsp_prefetch_backup_db H).
Proof.
  apply preserves_bind; [apply ensure_ocsp_dirs_mixin|]. intros _.
  apply preserves_try_except; [unfold safe_copy; frame_cases|].
  intros e. unfold log, modify. frame_cases.
Qed.

Lemma restore_db_mixin : preserves mixin_state (_ocsp_prefetch_restore_db H).
Proof.
  apply preserves_bind; [apply ensure_ocsp_dirs_mixin|]. intros _.
  apply preserves_try_except; [unfold filesystem_replace; frame_cases|].
  intros e. unfold log, modify. frame_cases.
Qed.

Lemma super_restart_mixin : preserves mixin_state (super_restart H).
Proof. unfold super_restart. frame_cases. Qed.

(** [restart] changes neither the storage file nor the configuration. *)
Lemma restart_preserves {B} (obs : state -> B) :
  preserves obs restart_load ->
  (forall A (m : M A), preserves mixin_state m -> preserves obs m) ->
  preserves obs (restart H).
Proof.
  intros Hload Hmix. unfold restart.
  apply preserves_bind; [exact Hload|]. intros _.
  apply preserves_bind.
  { apply preserves_bind; [apply preserves_gets|]. intros p.
    destruct (dict_nonempty p); [apply Hmix, backup_db_mixin|apply preserves_ret]. }
  intros _. apply preserves_try_finally; [apply Hmix, super_restart_mixin|].
  apply preserves_bind; [apply preserves_gets|]. intros p.
  destruct (dict_nonempty p); [apply Hmix, restore_db_mixin|apply preserves_ret].
Qed.

Lemma restart_disk : preserves storage_disk (restart H).
Proof.
  apply restart_preserves; [apply restart_load_disk|].
  intros A m Hm. from_mixin Hm.
Qed.

Lemma restart_cfg : preserves (fun s => (cfg_pending s, cfg_saved s)) (restart H).
Proof.
  apply restart_preserves; [apply restart_load_cfg|].
  intros A m Hm. from_mixin Hm.
Qed.

Lemma enable_stapling_disk vh : preserves storage_disk (_enable_ocsp_stapling H vh).
Proof. unfold _enable_ocsp_stapling. frame_cases. Qed.

Lemma recovery_routine_disk : preserves storage_disk (recovery_routine H).
Proof. unfold recovery_routine. frame_cases. Qed.

Lemma enable_until_refresh_disk lineage vhosts :
  preserves storage_disk (enable_until_refresh H lineage vhosts).
Proof.
  unfold enable_until_refresh.
  apply preserves_bind;
    [apply preserves_for_each; intros vh; apply enable_stapling_disk|]. intros _.
  apply preserves_bind.
  { pose proof (ensure_ocsp_dirs_mixin H) as Hm. from_mixin Hm. }
  intros _. apply preserves_bind; [apply restart_disk|]. intros _.
  apply preserves_bind; [unfold sleep, modify; frame_cases|]. intros _.
  pose proof (ocsp_refresh_mixin H (Lineage.cert_path lineage)
                (Lineage.chain_path lineage)) as Hm.
  from_mixin Hm.
Qed.

Lemma enable_rollback_disk err : preserves storage_disk (enable_rollback H err).
Proof.
  unfold enable_rollback.
  apply preserves_bind; [apply recovery_routine_disk|]. intros _.
  apply preserves_bind; [apply restart_disk|]. intros _.
  apply preserves_raise.
Qed.

(** With an eligible virtual host and a compatible system, [enable] is its
    [try] block under its handler. *)
Lemma enable_eq lineage domains s :
  _ensure_ocsp_prefetch_compatibility H s = (Ok tt, s) ->
  select_vhosts H s domains <> [] ->
  enable_ocsp_prefetch H lineage domains s =
  try_except (enable_sequence H lineage (select_vhosts H s domains))
    is_PluginError (enable_rollback H) s.
Proof.
  intros Hcompat Hvh. unfold enable_ocsp_prefetch.
  rewrite (bind_ok _ _ _ _ _ Hcompat). unfold bind at 1, gets at 1.
  destruct (select_vhosts H s domains); [congruence|reflexivity].
Qed.

End Enable.



Lemma flaky_restart_vhosts :
  select_vhosts flaky_restart_host (stapled_state flaky_restart_host) ["example.org"]
  <> [].
Proof. vm_compute. discriminate. Qed.


Example enable_restart_failure_persists_nothing :
  let H := flaky_restart_host in
  storage_disk
    (snd (enable_ocsp_prefetch H example_lineage ["example.org"] (stapled_state H)))
  = None.
Proof. vm_compute; reflexivity. Qed.

(** ** C10 and C4: what the sweep and the deploy hook do with a failure *)

Lemma fetch_state_ok (s : state) :
  _ocsp_prefetch_fetch_state s = (Ok tt, snd (_ocsp_prefetch_fetch_state s)).
Proof.
  unfold _ocsp_prefetch_fetch_state, try_except, storage_fetch,
    storage_initialize, bind, gets, modify, ret, raise.
  repeat (case_match; simpl in *; simplify_eq); reflexivity.
Qed.

Section TryRefresh.

Variable H : host.

(** The four ways [_ocsp_try_refresh] ends, by the outcome of the refresh. *)
Lemma try_refresh_ok cert chain s s1 :
  _ocsp_refresh H cert chain s = (Ok tt, s1) ->
  _ocsp_try_refresh H cert chain s = (Ok tt, s1).
Proof. intros Hr. unfold _ocsp_try_refresh, try_except. rewrite Hr. reflexivity. Qed.

Lemma try_refresh_transient cert chain s e s1 :
  _ocsp_refresh H cert chain s = (Raise e, s1) -> transient e ->
  _ocsp_try_refresh H cert chain s = (Ok tt, emit (renew_issue e) s1).
Proof.
  intros Hr [Hp He]. unfold _ocsp_try_refresh, try_except.
  rewrite Hr, Hp, He. reflexivity.
Qed.

Lemma try_refresh_other cert chain s e s1 :
  _ocsp_refresh H cert chain s = (Raise e, s1) -> is_PluginError e = false ->
  _ocsp_try_refresh H cert chain s = (Raise e, s1).
Proof.
  intros Hr Hp. unfold _ocsp_try_refresh, try_except. rewrite Hr, Hp. reflexivity.
Qed.

Lemma try_refresh_eviction cert chain s e s1 :
  _ocsp_refresh H cert chain s = (Raise e, s1) ->
  is_OCSPCertificateError e = true ->
  is_Some (dict_get cert (ocsp_prefetch s)) ->
  exists s2,
    _ocsp_try_refresh H cert chain s = (Raise e, s2) /\
    ocsp_prefetch s2 = dict_del cert (ocsp_prefetch s) /\
    storage_disk s2 = storage_disk s /\
    trace s2 =
      trace s1 ++ [EvStoragePut (dict_del cert (ocsp_prefetch s)); eviction_notice e].
Proof.
  intros Hr He [pf Hpf].
  assert (Hp : is_PluginError e = true).
  { unfold is_OCSPCertificateError in He. unfold is_PluginError.
    destruct (exn_cls e); congruence. }
  pose proof (ocsp_refresh_prefetch H cert chain s) as Hpre.
  pose proof (ocsp_refresh_storage_disk H cert chain s) as Hdisk.
  rewrite Hr in Hpre, Hdisk. simpl in Hpre, Hdisk.
  unfold _ocsp_try_refresh, try_except. rewrite Hr, Hp, He.
  pose proof (prefetch_remove_cases H cert s1) as Hrm.
  rewrite Hpre, Hpf in Hrm. cbv zeta in Hrm.
  destruct Hrm as (s' & Hrm & Hd & _ & Htr & _ & Hdk & _).
  rewrite (bind_ok _ _ _ _ _ Hrm).
  eexists. split; [reflexivity|]. simpl.
  rewrite Hd, Hdk, Hdisk, Htr, <- app_assoc. auto.
Qed.

(** What [_ocsp_prefetch_save] does: it stamps the entry with the current
    time, puts the dictionary and saves; only the save can fail. *)
Lemma prefetch_save_stamps cert chain s :
  let entry := {| lastupdate := time_time H s; chain_path := chain |} in
  exists r s2,
    _ocsp_prefetch_save H cert chain s = (r, s2) /\
    ocsp_prefetch s2 = dict_set cert entry (ocsp_prefetch s) /\
    (r = Ok tt -> storage_disk s2 = Some (ocsp_prefetch s2)) /\
    (forall e, r = Raise e -> exn_cls e = PluginStorageError) /\
    ((forall st, storage_save_fails H st = false) -> r = Ok tt) /\
    (exists evs, trace s2 = trace s ++ evs).
Proof.
  intros entry. unfold _ocsp_prefetch_save.
  unfold bind at 1, gets at 1. unfold bind at 1, modify at 1.
  fold entry. set (s0 := set_ocsp_prefetch _ s).
  destruct (storage_put_eq s0)
    as (s' & Hput & _ & Hpre & Hinit & Hdata & _ & _ & _ & Htrace).
  rewrite (bind_ok _ _ _ _ _ Hput). unfold storage_save. rewrite Hinit. simpl.
  destruct (storage_save_fails H s') eqn:Hf; eexists _, _; (split; [reflexivity|]); simpl.
  - split; [exact Hpre|]. split; [discriminate|].
    split; [intros e Heq; inversion Heq; reflexivity|].
    split; [intros Hall; rewrite Hall in Hf; discriminate|].
    rewrite Htrace, <- app_assoc. eauto.
  - split; [exact Hpre|].
    split; [intros _; unfold storage_value; rewrite Hdata, Hpre; reflexivity|].
    split; [discriminate|]. split; [reflexivity|].
    rewrite Htrace, <- app_assoc. eauto.
Qed.

(** The loop body on a tracked entry that is due. *)
Lemma update_one_due cert pf s :
  dict_get cert (ocsp_prefetch s) = Some pf ->
  fst (_ocsp_refresh_needed H (lastupdate pf) s) = Ok true ->
  update_one H cert s =
  (refreshed <-
     try_except (_ocsp_try_refresh H cert (chain_path pf) ;; ret true)
       is_OCSPCertificateError (fun _ => ret false) ;;
   if refreshed then _ocsp_prefetch_save H cert (chain_path pf) else ret tt) s.
Proof.
  intros Hpf Hdue. unfold update_one.
  unfold bind at 1, gets at 1. rewrite Hpf.
  rewrite ocsp_refresh_needed_eq in Hdue. simpl in Hdue. inversion Hdue as [Hd].
  unfold bind at 1. rewrite ocsp_refresh_needed_eq, Hd. reflexivity.
Qed.

Lemma update_one_not_due cert pf s :
  dict_get cert (ocsp_prefetch s) = Some pf ->
  fst (_ocsp_refresh_needed H (lastupdate pf) s) = Ok false ->
  update_one H cert s = (Ok tt, s).
Proof.
  intros Hpf Hdue. unfold update_one.
  unfold bind at 1, gets at 1. rewrite Hpf.
  rewrite ocsp_refresh_needed_eq in Hdue. simpl in Hdue. inversion Hdue as [Hd].
  unfold bind at 1. rewrite ocsp_refresh_needed_eq, Hd. reflexivity.
Qed.

Lemma update_one_transient cert pf s e s1 :
  dict_get cert (ocsp_prefetch s) = Some pf ->
  fst (_ocsp_refresh_needed H (lastupdate pf) s) = Ok true ->
  _ocsp_refresh H cert (chain_path pf) s = (Raise e, s1) -> transient e ->
  update_one H cert s =
  _ocsp_prefetch_save H cert (chain_path pf) (emit (renew_issue e) s1).
Proof.
  intros Hpf Hdue Hr Ht. rewrite (update_one_due _ _ _ Hpf Hdue).
  unfold bind at 1, try_except. unfold bind at 1.
  rewrite (try_refresh_transient _ _ _ _ _ Hr Ht). reflexivity.
Qed.

Lemma update_one_success cert pf s s1 :
  dict_get cert (ocsp_prefetch s) = Some pf ->
  fst (_ocsp_refresh_needed H (lastupdate pf) s) = Ok true ->
  _ocsp_refresh H cert (chain_path pf) s = (Ok tt, s1) ->
  update_one H cert s = _ocsp_prefetch_save H cert (chain_path pf) s1.
Proof.
  intros Hpf Hdue Hr. rewrite (update_one_due _ _ _ Hpf Hdue).
  unfold bind at 1, try_except. unfold bind at 1.
  rewrite (try_refresh_ok _ _ _ _ Hr). reflexivity.
Qed.

Lemma update_one_eviction cert pf s e s1 :
  dict_get cert (ocsp_prefetch s) = Some pf ->
  fst (_ocsp_refresh_needed H (lastupdate pf) s) = Ok true ->
  _ocsp_refresh H cert (chain_path pf) s = (Raise e, s1) ->
  is_OCSPCertificateError e = true ->
  exists s2,
    update_one H cert s = (Ok tt, s2) /\
    ocsp_prefetch s2 = dict_del cert (ocsp_prefetch s) /\
    storage_disk s2 = storage_disk s /\
    trace s2 =
      trace s1 ++ [EvStoragePut (dict_del cert (ocsp_prefetch s)); eviction_notice e].
Proof.
  intros Hpf Hdue Hr He. rewrite (update_one_due _ _ _ Hpf Hdue).
  destruct (try_refresh_eviction _ _ _ _ _ Hr He (ltac:(eauto)))
    as (s2 & Htry & Hrest).
  exists s2. split; [|exact Hrest].
  unfold bind at 1, try_except. unfold bind at 1. rewrite Htry, He. reflexivity.
Qed.

Lemma update_one_escapes cert pf s e s1 :
  dict_get cert (ocsp_prefetch s) = Some pf ->
  fst (_ocsp_refresh_needed H (lastupdate pf) s) = Ok true ->
  _ocsp_refresh H cert (chain_path pf) s = (Raise e, s1) ->
  is_PluginError e = false ->
  update_one H cert s = (Raise e, s1).
Proof.
  intros Hpf Hdue Hr Hp. rewrite (update_one_due _ _ _ Hpf Hdue).
  assert (He : is_OCSPCertificateError e = false).
  { unfold is_PluginError in Hp. unfold is_OCSPCertificateError.
    destruct (exn_cls e); congruence. }
  unfold bind at 1, try_except. unfold bind at 1.
  rewrite (try_refresh_other _ _ _ _ _ Hr Hp), He. reflexivity.
Qed.

End TryRefresh.

Lemma deploy_tracked (H : host) (lineage : Lineage.t) (s_pre : state) :
  let s := snd (_ocsp_prefetch_fetch_state s_pre) in
  is_Some (dict_get (Lineage.cert_path lineage) (ocsp_prefetch s)) ->
  deploy_ocsp_prefetch H lineage s_pre =
  (refreshed <-
     try_except
       (_ocsp_try_refresh H (Lineage.cert_path lineage) (Lineage.chain_path lineage) ;;
        ret true)
       is_OCSPCertificateError (fun _ => ret false) ;;
   if refreshed then
     _ocsp_prefetch_save H (Lineage.cert_path lineage) (Lineage.chain_path lineage)
   else ret tt) s.
Proof.
  intros s [pf Hpf]. unfold deploy_ocsp_prefetch.
  rewrite (bind_ok _ _ _ _ _ (fetch_state_ok s_pre)). fold s.
  assert (Hne : dict_nonempty (ocsp_prefetch s) = true)
    by (destruct (ocsp_prefetch s); [discriminate|reflexivity]).
  unfold bind at 1, gets at 1. cbv beta iota. rewrite Hne, Hpf. reflexivity.
Qed.



(** The sweep then stamps the entry with the current time, 100000, although
    no staple was installed. *)
Example sweep_restamps_after_transient_failure :
  let H := short_validity_host in
  let s' := snd (update_ocsp_prefetch H (tracked_state H)) in
  fst (update_ocsp_prefetch H (tracked_state H)) = Ok tt /\
  storage_disk s' =
    Some [(example_cert, {| lastupdate := 100000; chain_path := example_chain |})] /\
  files s' !! _ocsp_store H = Some (Dbm {["old key" := "old staple"]}).
Proof. repeat split; vm_compute; reflexivity. Qed.

(** *** The sweep as a whole *)

Lemma dict_get_keys (k : string) (d : dict) :
  k ∈ dict_keys d -> is_Some (dict_get k d).
Proof.
  induction d as [|[k' v] d IH]; simpl.
  - intros Hin. inversion Hin.
  - intros Hin. destruct (String.eqb_spec k k') as [->|Hne]; [eauto|].
    apply IH. apply elem_of_cons in Hin as [Heq|Hin]; [contradiction|exact Hin].
Qed.

Lemma plugin_error_cases (e : exn) :
  is_PluginError e = true ->
  is_OCSPCertificateError e = true \/ transient e.
Proof.
  intros Hp. destruct (is_OCSPCertificateError e) eqn:He; [left|right; split]; auto.
Qed.

Section Sweep.

Variable H : host.

Hypothesis refresh_plugin_errors :
  forall cert chain,
    raises_only (fun e => is_PluginError e = true) (_ocsp_refresh H cert chain).

Hypothesis saves_succeed : forall st, storage_save_fails H st = false.

(** One round of the loop returns, and touches no entry but its own. *)
Lemma update_one_returns (cert : string) (s : state) :
  is_Some (dict_get cert (ocsp_prefetch s)) ->
  exists s2,
    update_one H cert s = (Ok tt, s2) /\
    forall k, k <> cert ->
      dict_get k (ocsp_prefetch s2) = dict_get k (ocsp_prefetch s).
Proof using refresh_plugin_errors saves_succeed.
  intros [pf Hpf].
  destruct (Qlt_bool (lastupdate pf + OCSP_INTERNAL_TTL H) (time_time H s)) eqn:Hdue.
  2: { exists s. split; [|reflexivity].
       apply (update_one_not_due H cert pf); [exact Hpf|].
       rewrite ocsp_refresh_needed_eq. simpl. rewrite Hdue. reflexivity. }
  assert (Hd : fst (_ocsp_refresh_needed H (lastupdate pf) s) = Ok true).
  { rewrite ocsp_refresh_needed_eq. simpl. rewrite Hdue. reflexivity. }
  pose proof (ocsp_refresh_prefetch H cert (chain_path pf) s) as Hframe.
  destruct (_ocsp_refresh H cert (chain_path pf) s) as [[[]|e] s1] eqn:Hr;
    simpl in Hframe.
  - rewrite (update_one_success H _ _ _ _ Hpf Hd Hr).
    destruct (prefetch_save_stamps H cert (chain_path pf) s1)
      as (r & s2 & Hsave & Hpre & _ & _ & Hok & _).
    rewrite Hsave, (Hok saves_succeed). exists s2. split; [reflexivity|].
    intros k Hk. rewrite Hpre, dict_get_set_ne, Hframe by auto. reflexivity.
  - destruct (plugin_error_cases e (refresh_plugin_errors _ _ _ _ _ Hr)) as [He|Ht].
    + destruct (update_one_eviction H _ _ _ _ _ Hpf Hd Hr He)
        as (s2 & Hup & Hpre & _).
      exists s2. split; [exact Hup|].
      intros k Hk. rewrite Hpre. apply dict_get_del_ne. auto.
    + rewrite (update_one_transient H _ _ _ _ _ Hpf Hd Hr Ht).
      destruct (prefetch_save_stamps H cert (chain_path pf) (emit (renew_issue e) s1))
        as (r & s2 & Hsave & Hpre & _ & _ & Hok & _).
      rewrite Hsave, (Hok saves_succeed). exists s2. split; [reflexivity|].
      intros k Hk. rewrite Hpre, dict_get_set_ne by auto. simpl.
      rewrite Hframe. reflexivity.
Qed.

Lemma sweep_loop_returns (keys : list string) :
  NoDup keys ->
  forall s,
    (forall k, k ∈ keys -> is_Some (dict_get k (ocsp_prefetch s))) ->
    exists s', for_each keys (update_one H) s = (Ok tt, s').
Proof using refresh_plugin_errors saves_succeed.
  induction keys as [|k keys IH]; intros Hnd s Hall.
  - exists s. reflexivity.
  - apply NoDup_cons in Hnd as [Hnotin Hnd].
    destruct (update_one_returns k s) as (s2 & Hup & Hothers).
    { apply Hall. left. }
    simpl. rewrite (bind_ok _ _ _ _ _ Hup).
    apply (IH Hnd). intros k' Hin.
    rewrite Hothers; [apply Hall; right; exact Hin|].
    intros ->. contradiction.
Qed.

Lemma sweep_returns (s : state) :
  NoDup (dict_keys (ocsp_prefetch (snd (_ocsp_prefetch_fetch_state s)))) ->
  exists s', update_ocsp_prefetch H s = (Ok tt, s').
Proof using refresh_plugin_errors saves_succeed.
  intros Hnd. unfold update_ocsp_prefetch.
  rewrite (bind_ok _ _ _ _ _ (fetch_state_ok s)).
  set (s0 := snd (_ocsp_prefetch_fetch_state s)) in *.
  unfold bind at 1, gets at 1.
  destruct (negb (dict_nonempty (ocsp_prefetch s0))); [eexists; reflexivity|].
  apply sweep_loop_returns; [exact Hnd|].
  intros k. apply dict_get_keys.
Qed.

End Sweep.

(** *** Which refresh failures are plugin errors *)

Lemma of_lib_plugin_error (e : lib_exn) :
  lib_cls e <> LOSError -> plugin_error (of_lib e).
Proof. destruct e as [[] msg]; simpl; intros Hne; [congruence|reflexivity..]. Qed.

Lemma ocsp_ttl_result (H : host) (nu : option Z) (s : state) :
  (exists ttl, _ocsp_ttl H nu s = (Ok ttl, s)) \/
  (exists msg, _ocsp_ttl H nu s = (Raise (Exn PluginError msg), s)).
Proof.
  destruct nu as [nu|]; [|right; eexists; reflexivity].
  rewrite ocsp_ttl_some. cbv zeta.
  destruct (31 * hour <? _)%Z; [left|right]; eexists; reflexivity.
Qed.

Section PluginErrors.

Variable H : host.
Hypothesis Hos : no_os_errors H.

Lemma ocsp_response_dbm_plugin_errors w :
  raises_only plugin_error (_ocsp_response_dbm H w).
Proof using Hos.
  destruct Hos as (_ & _ & Htimes & Hmissing).
  intros s e s'. unfold _ocsp_response_dbm.
  unfold bind at 1, ocsp_next_update.
  destruct (ocsp_times H s (files s !! w)) as [le|nu] eqn:Ht.
  { intros Heq. inversion Heq; subst. eapply of_lib_plugin_error, Htimes, Ht. }
  unfold bind at 1.
  destruct (ocsp_ttl_result H nu s) as [[ttl Httl]|[msg Httl]]; rewrite Httl.
  2: { intros Heq. inversion Heq; subst. reflexivity. }
  unfold bind, read_bytes, gets.
  destruct (files s !! w) as [[d|m]|]; try discriminate.
  destruct (Hmissing s) as [le Hle]. congruence.
Qed.

Lemma write_to_dbm_plugin_errors f key value :
  raises_only plugin_error (_write_to_dbm H f key value).
Proof using Hos.
  destruct Hos as (Hreplace & _).
  intros s e s'. unfold _write_to_dbm.
  set (tmp := os_path.join _ _).
  unfold bind at 1, safe_copy.
  destruct (files s !! f) as [c|];
    [destruct (copy_fails H s f tmp)|];
    try (intros Heq; inversion Heq; subst; reflexivity).
  set (s3 := emit _ _).
  unfold bind at 1. unfold bind at 1, DBMHandler_enter.
  destruct (files s3 !! dbm_filename H tmp) as [[d|m]|] eqn:Hdb;
    try (intros Heq; inversion Heq; subst; reflexivity).
  destruct (dbm_open_fails H s3 (dbm_filename H tmp));
    try (intros Heq; inversion Heq; subst; reflexivity).
  unfold try_finally, db_setitem, DBMHandler_exit, ret. rewrite Hdb.
  set (s4 := emit _ _).
  unfold filesystem_replace. rewrite Hreplace.
  assert (Htmp : is_Some (files s4 !! tmp)).
  { unfold s4, s3. simpl.
    destruct (decide (dbm_filename H tmp = tmp)) as [->|Hne].
    - rewrite lookup_insert_eq. eauto.
    - rewrite lookup_insert_ne, lookup_insert_eq by exact Hne. eauto. }
  destruct Htmp as [c' ->]. discriminate.
Qed.

(** On such a host every failure of a refresh is a [PluginError]. *)
Lemma refresh_plugin_errors_only cert chain :
  raises_only plugin_error (_ocsp_refresh H cert chain).
Proof using Hos.
  unfold _ocsp_refresh.
  apply raises_only_bind.
  { intros s e s' Heq. rewrite ensure_ocsp_dirs_ok in Heq. discriminate. }
  intros _. apply raises_only_bind; [apply raises_only_gets|]. intros present.
  destruct present; simpl; [|apply raises_only_raise; reflexivity].
  apply raises_only_bind.
  { intros s e s' Heq. rewrite certid_sha1_hex_eq in Heq. discriminate. }
  intros hex. apply raises_only_try_finally.
  - apply raises_only_bind.
    { destruct Hos as (_ & Hresp & _).
      intros s e s'. unfold ocsp_revoked.
      destruct (ocsp_revoked_by_paths H s cert chain) as [[le|b] written] eqn:Ha;
        intros Heq; inversion Heq; subst.
      eapply of_lib_plugin_error, (Hresp s cert chain). rewrite Ha. reflexivity. }
    intros [].
    + apply raises_only_bind; [apply raises_only_modify|]. intros _.
      apply raises_only_raise. reflexivity.
    + apply raises_only_bind; [apply raises_only_gets|]. intros sha.
      apply raises_only_bind; [apply ocsp_response_dbm_plugin_errors|]. intros value.
      apply write_to_dbm_plugin_errors.
  - eapply raises_only_weaken; [|apply remove_workfile_never_raises].
    intros e [].
Qed.

End PluginErrors.

(** *** C4 *)

Lemma scripted_host_no_os_errors now utc responder next_update restart_failure
    restart_leaves config_save_failure :
  (forall cert e, fst (responder cert) = inl e -> lib_cls e <> LOSError) ->
  (forall e, next_update = inl e -> lib_cls e <> LOSError) ->
  no_os_errors
    (scripted_host now utc responder next_update false restart_failure
       restart_leaves config_save_failure).
Proof.
  intros Hresp Htimes. unfold no_os_errors. simpl.
  split; [reflexivity|]. split; [intros _ cert _; apply Hresp|].
  split.
  - intros _ [c|] e Heq; [apply Htimes, Heq|]. inversion Heq. discriminate.
  - intros _. eexists. reflexivity.
Qed.



Lemma b_revoked_host_no_os_errors : no_os_errors b_revoked_host.
Proof.
  apply scripted_host_no_os_errors.
  - intros cert e. unfold b_revoked. destruct (String.eqb cert cert_b); discriminate.
  - discriminate.
Qed.

Lemma three_certs_distinct :
  NoDup (dict_keys (ocsp_prefetch
           (snd (_ocsp_prefetch_fetch_state (three_certs_state b_revoked_host))))).
Proof. refine (bool_decide_unpack _ _). vm_compute. exact I. Qed.


(** In that sweep the first and the third certificate are refreshed and
    persisted with the current time, the second is evicted. *)
Example sweep_isolation :
  let H := b_revoked_host in
  let s' := snd (update_ocsp_prefetch H (three_certs_state H)) in
  storage_disk s' =
    Some [(cert_a, {| lastupdate := 100000; chain_path := "chain a" |});
          (cert_c, {| lastupdate := 100000; chain_path := "chain c" |})] /\
  files s' !! _ocsp_store H =
    Some (Dbm (<["c" := "good"]> (<["a" := "good"]> {["old key" := "old staple"]}))).
Proof. split; vm_compute; reflexivity. Qed.


(** ** Paths, directories and the database handle *)

Lemma hexlify_not_letter (d rest : string) (c : ascii) :
  (c = "t" \/ c = "o")%char -> hexlify d <> String c rest.
Proof.
  intros Hc. destruct d as [|[b0 b1 b2 b3 b4 b5 b6 b7] r]; [discriminate|].
  simpl. destruct Hc as [-> | ->]; destruct b4, b5, b6, b7; discriminate.
Qed.

(** X1: Whatever the work directory (empty, relative, absolute, with or without
    a trailing separator) and whatever the digest of the certificate, the
    active store, its backup, the temporary copy and the scratch response
    file are four different paths, the last three in [ocsp_work], the store
    in [ocsp]. *)
Theorem cache_paths_distinct (H : host) (d : string) :
  let base := os_path.with_sep (work_dir H) in
  _ocsp_store H = base +:+ "ocsp/ocsp_cache.db" /\
  _ocsp_work H = base +:+ "ocsp_work/ocsp_cache.db" /\
  tmp_file H = base +:+ "ocsp_work/tmp_ocsp_cache.db" /\
  workfile H d = base +:+ "ocsp_work/" +:+ hexlify d /\
  _ocsp_store H <> _ocsp_work H /\
  _ocsp_store H <> tmp_file H /\
  _ocsp_store H <> workfile H d /\
  _ocsp_work H <> tmp_file H /\
  _ocsp_work H <> workfile H d /\
  tmp_file H <> workfile H d.
Proof.
  intros base.
  pose proof (ocsp_store_eq H) as Hs. pose proof (ocsp_work_eq H) as Hw.
  pose proof (tmp_file_eq H) as Ht. pose proof (workfile_eq H d) as Hf.
  fold base in Hs, Hw, Ht, Hf.
  repeat (split; [assumption|]).
  rewrite Hs, Hw, Ht, Hf.
  repeat split; intros Heq; apply String.app_inj in Heq; try discriminate.
  - change ("ocsp_work/ocsp_cache.db") with ("ocsp_work/" +:+ "ocsp_cache.db") in Heq.
    apply String.app_inj in Heq. symmetry in Heq.
    revert Heq. apply hexlify_not_letter. auto.
  - change ("ocsp_work/tmp_ocsp_cache.db") with ("ocsp_work/" +:+ "tmp_ocsp_cache.db") in Heq.
    apply String.app_inj in Heq. symmetry in Heq.
    revert Heq. apply hexlify_not_letter. auto.
Qed.

Lemma strip_db_suffix (a : string) : strip_db (a +:+ ".db") = a.
Proof.
  induction a as [|c a IH]; [reflexivity|].
  rewrite app_cons, strip_db_cons, IH.
  destruct (String.eqb_spec (String c (a +:+ ".db")) ".db") as [Habs|_]; [|reflexivity].
  exfalso. apply (f_equal String.length) in Habs.
  simpl in Habs. rewrite length_app_s in Habs. simpl in Habs. lia.
Qed.


Lemma ensure_dir_in (p : string) (s : state) : p ∈ dirs (ensure_dir p s).
Proof.
  unfold ensure_dir. case_bool_decide as Hin; [exact Hin|]. simpl. set_solver.
Qed.

Lemma ensure_dir_mono (p : string) (s : state) : dirs s ⊆ dirs (ensure_dir p s).
Proof. unfold ensure_dir. case_bool_decide; simpl; set_solver. Qed.

Lemma ensure_dir_files (p : string) (s : state) : files (ensure_dir p s) = files s.
Proof. unfold ensure_dir. case_bool_decide; reflexivity. Qed.

Lemma ensure_dir_id (p : string) (s : state) : p ∈ dirs s -> ensure_dir p s = s.
Proof. intros Hin. unfold ensure_dir. rewrite bool_decide_eq_true_2; auto. Qed.

Lemma ensure_ocsp_dirs_steps (H : host) (s : state) :
  _ensure_ocsp_dirs H s =
  (Ok tt, ensure_dir (os_path.dirname (_ocsp_store H))
            (ensure_dir (os_path.dirname (_ocsp_work H)) s)).
Proof.
  unfold _ensure_ocsp_dirs, for_each, bind, isdir, gets, ret,
    filesystem_makedirs, modify, ensure_dir.
  repeat (case_bool_decide; simpl); reflexivity.
Qed.



(** ** The atomic update and a successful refresh *)

Lemma bind_ok_inv {A B} (m : M A) (k : A -> M B) s b s' :
  bind m k s = (Ok b, s') ->
  exists a s1, m s = (Ok a, s1) /\ k a s1 = (Ok b, s').
Proof.
  intros Heq. apply bind_inv in Heq as [Hok|(e & _ & Habs)]; [exact Hok|discriminate].
Qed.

Lemma try_finally_ok_inv {A} (m : M A) (f : M unit) s a s' :
  try_finally m f s = (Ok a, s') ->
  exists s1, m s = (Ok a, s1) /\ f s1 = (Ok tt, s').
Proof.
  unfold try_finally. destruct (m s) as [r s1].
  destruct (f s1) as [[[]|e] s2] eqn:Hf; intros Heq; inversion Heq; subst.
  exists s1. split; [reflexivity|exact Hf].
Qed.

(** Runs a returning [_write_to_dbm] on the active store step by step:
    [Hrun] becomes the database [m] that the store held, and the final world
    is written out. *)
Ltac write_to_dbm_steps H Hrun m :=
  let Hcopy := fresh "Hcopy" in
  let Hedit := fresh "Hedit" in
  let Hrepl := fresh "Hrepl" in
  let Henter := fresh "Henter" in
  let Hset := fresh "Hset" in
  let Hexit := fresh "Hexit" in
  let Hdb := fresh "Hdb" in
  let c := fresh "c" in
  let Hstore := fresh "Hstore" in
  unfold _write_to_dbm in Hrun;
  change (os_path.join _ _) with (tmp_file H) in Hrun;
  apply bind_ok_inv in Hrun as ([] & ? & Hcopy & Hrun);
  apply bind_ok_inv in Hrun as ([] & ? & Hedit & Hrepl);
  apply bind_ok_inv in Hedit as (? & ? & Henter & Hset);
  apply try_finally_ok_inv in Hset as (? & Hset & Hexit);
  apply DBMHandler_enter_value in Henter as Hdb; destruct Hdb as [? ?]; subst;
  inversion Hexit; subst; clear Hexit;
  unfold safe_copy in Hcopy;
  match type of Hcopy with context [files ?s !! _ocsp_store H] =>
    destruct (files s !! _ocsp_store H) as [c|] eqn:Hstore; [|discriminate]
  end;
  match type of Hcopy with context [copy_fails ?a ?b ?c ?d] =>
    destruct (copy_fails a b c d); [discriminate|]
  end;
  inversion Hcopy; subst; clear Hcopy;
  unfold DBMHandler_enter in Henter; rewrite dbm_filename_tmp in Henter, Hset;
  simpl in Henter; rewrite lookup_insert_eq in Henter;
  destruct c as [?|m]; [discriminate|]; clear Henter;
  unfold db_setitem in Hset; simpl in Hset; rewrite lookup_insert_eq in Hset;
  inversion Hset; subst; clear Hset;
  unfold filesystem_replace in Hrepl; simpl in Hrepl;
  rewrite lookup_insert_eq in Hrepl;
  match type of Hrepl with context [replace_fails ?a ?b ?c ?d] =>
    destruct (replace_fails a b c d); [discriminate|]
  end;
  inversion Hrepl; subst; clear Hrepl.

(** X4: [_write_to_dbm] on the active store, when it returns: the store was a
    database and is now that database with the one key set; the temporary
    copy is gone; no other file changed; and the steps were the copy, the
    write into the copy and the replace, in this order. *)
Theorem write_to_dbm_installs (H : host) (key value : string) (s s' : state) :
  _write_to_dbm H (_ocsp_store H) key value s = (Ok tt, s') ->
  exists m,
    files s !! _ocsp_store H = Some (Dbm m) /\
    files s' !! _ocsp_store H = Some (Dbm (<[key := value]> m)) /\
    files s' !! tmp_file H = None /\
    (forall p, p <> _ocsp_store H -> p <> tmp_file H -> files s' !! p = files s !! p) /\
    trace s' =
      trace s ++ [EvCopy (_ocsp_store H) (tmp_file H) true;
                  EvDbmWrite (tmp_file H) key value;
                  EvReplace (tmp_file H) (_ocsp_store H) true].
Proof.
  intros Hrun. pose proof (tmp_ne_store H) as Hne.
  write_to_dbm_steps H Hrun m. simpl.
  exists m. split; [reflexivity|]. split; [apply lookup_insert_eq|].
  split; [rewrite lookup_insert_ne, lookup_delete_eq by auto; reflexivity|].
  split.
  - intros p Hp1 Hp2.
    rewrite lookup_insert_ne, lookup_delete_ne, !lookup_insert_ne by auto.
    reflexivity.
  - rewrite <- !app_assoc. reflexivity.
Qed.

(** The atomic update on a store that holds one staple. *)
Lemma write_to_dbm_installs_witness :
  let H := good_host in
  let s := stapled_state H in
  let s' := snd (_write_to_dbm H (_ocsp_store H) "key" "value" s) in
  exists m,
    files s !! _ocsp_store H = Some (Dbm m) /\
    files s' !! _ocsp_store H = Some (Dbm (<["key" := "value"]> m)) /\
    files s' !! tmp_file H = None /\
    (forall p, p <> _ocsp_store H -> p <> tmp_file H -> files s' !! p = files s !! p) /\
    trace s' =
      trace s ++ [EvCopy (_ocsp_store H) (tmp_file H) true;
                  EvDbmWrite (tmp_file H) "key" "value";
                  EvReplace (tmp_file H) (_ocsp_store H) true].
Proof.
  intros.
  refine (write_to_dbm_installs H "key" "value" s s' _).
  vm_compute; reflexivity.
Defined.


Lemma ocsp_response_dbm_pure (H : host) (w : string) (s : state) :
  snd (_ocsp_response_dbm H w s) = s.
Proof.
  unfold _ocsp_response_dbm, bind, ocsp_next_update.
  destruct (ocsp_times H s (files s !! w)) as [e|nu]; [reflexivity|].
  destruct (ocsp_ttl_result H nu s) as [[ttl Httl]|[msg Httl]]; rewrite Httl;
    [|reflexivity].
  unfold read_bytes, gets. destruct (files s !! w) as [[d|m]|]; reflexivity.
Qed.

(** The [finally] clause of [_ocsp_refresh]: the scratch file is gone and
    every other file is as it was. *)
Lemma remove_workfile_effect (w : string) (s : state) :
  exists s',
    try_except (os_remove w) is_OSError (fun _ => ret tt) s = (Ok tt, s') /\
    files s' !! w = None /\
    (forall p, p <> w -> files s' !! p = files s !! p) /\
    mixin_state s' = mixin_state s.
Proof.
  unfold try_except, os_remove.
  destruct (files s !! w) as [c|] eqn:Hw; simpl; eexists; (split; [reflexivity|]); simpl.
  - split; [apply lookup_delete_eq|]. split; [|reflexivity].
    intros p Hp. apply lookup_delete_ne. auto.
  - split; [exact Hw|]. split; reflexivity.
Qed.


(** X6: When [_ocsp_refresh] returns: the certificate is on disk; the active
    store was a database and is now that database with one key set, the
    digest of the certificate; every other staple is still there; the
    scratch file and the temporary copy are gone; no other file changed, and
    neither did the dictionary, the plugin storage or the configuration. *)
Theorem refresh_success_installs_staple (H : host) (cert chain : string)
    (s s' : state) :
  _ocsp_refresh H cert chain s = (Ok tt, s') ->
  let w := workfile H (cert_digest H (files s !! cert)) in
  exists m key value,
    is_Some (files s !! cert) /\
    files s !! _ocsp_store H = Some (Dbm m) /\
    files s' !! _ocsp_store H = Some (Dbm (<[key := value]> m)) /\
    (cert <> w -> key = cert_digest H (files s !! cert)) /\
    files s' !! w = None /\
    files s' !! tmp_file H = None /\
    (forall p, p <> _ocsp_store H -> p <> tmp_file H -> p <> w ->
       files s' !! p = files s !! p) /\
    mixin_state s' = mixin_state s.
Proof.
  intros Hrun w.
  pose proof (ocsp_refresh_mixin H cert chain s) as Hmix.
  rewrite Hrun in Hmix. simpl in Hmix.
  pose proof (tmp_ne_store H) as Hts.
  pose proof (workfile_ne_store H (cert_digest H (files s !! cert))) as Hws.
  fold w in Hws.
  unfold _ocsp_refresh in Hrun.
  apply bind_ok_inv in Hrun as ([] & s1 & Hdirs & Hrun).
  rewrite ensure_ocsp_dirs_ok in Hdirs. inversion Hdirs as [Hs1]. clear Hdirs.
  assert (Hf1 : files s1 = files s) by (subst s1; apply ensure_ocsp_dirs_files).
  apply bind_ok_inv in Hrun as (present & s1' & Hpresent & Hrun).
  unfold isfile, gets in Hpresent. inversion Hpresent; subst present s1'.
  clear Hpresent. rewrite Hf1 in Hrun.
  destruct (files s !! cert) as [pem|] eqn:Hcert; [|discriminate]. simpl in Hrun.
  apply bind_ok_inv in Hrun as (hex & s1' & Hhex & Hrun).
  rewrite certid_sha1_hex_eq in Hhex. inversion Hhex; subst hex s1'. clear Hhex.
  rewrite Hf1, Hcert in Hrun.
  change (os_path.join _ _) with w in Hrun.
  apply try_finally_ok_inv in Hrun as (sb & Hbody & Hclean).
  destruct (remove_workfile_effect w sb) as (s'' & Hclean' & Hw & Hothers & _).
  rewrite Hclean' in Hclean. inversion Hclean; subst s''. clear Hclean Hclean'.
  apply bind_ok_inv in Hbody as (revoked & s2 & Hrev & Hbody).
  assert (Hf2 : forall p, p <> w -> files s2 !! p = files s !! p).
  { intros p Hp. pose proof (ocsp_revoked_file H p cert chain w (not_eq_sym Hp) s1) as Hq.
    rewrite Hrev in Hq. unfold file_at in Hq. simpl in Hq. rewrite Hq, Hf1. reflexivity. }
  destruct revoked.
  { apply bind_ok_inv in Hbody as ([] & ? & _ & Hbody). discriminate. }
  apply bind_ok_inv in Hbody as (sha & s2' & Hsha & Hbody).
  unfold certid_sha1, gets in Hsha. inversion Hsha; subst sha s2'. clear Hsha.
  apply bind_ok_inv in Hbody as (value & s2' & Hvalue & Hwrite).
  pose proof (ocsp_response_dbm_pure H w s2) as Hpure.
  rewrite Hvalue in Hpure. simpl in Hpure. subst s2'.
  write_to_dbm_steps H Hwrite m.
  exists m, (cert_digest H (files s2 !! cert)), value.
  split; [eauto|].
  split; [rewrite <- Hf2 by auto; assumption|].
  split.
  { rewrite Hothers by auto. simpl. apply lookup_insert_eq. }
  split.
  { intros Hcw. rewrite Hf2, Hcert by exact Hcw. reflexivity. }
  split; [exact Hw|].
  split.
  { destruct (decide (tmp_file H = w)) as [->|Htw]; [exact Hw|].
    rewrite Hothers by exact Htw. simpl.
    rewrite lookup_insert_ne, lookup_delete_eq by auto. reflexivity. }
  split; [|exact Hmix].
  intros p Hp1 Hp2 Hp3. rewrite Hothers by exact Hp3. simpl.
  rewrite lookup_insert_ne, lookup_delete_ne, !lookup_insert_ne by auto.
  apply Hf2, Hp3.
Qed.

(** A good response for the certificate of [stapled_state]: the new staple
    joins the old one. *)
Lemma refresh_success_installs_staple_witness :
  let H := good_host in
  let s := stapled_state H in
  let s' := snd (_ocsp_refresh H example_cert example_chain s) in
  let w := workfile H (cert_digest H (files s !! example_cert)) in
  exists m key value,
    is_Some (files s !! example_cert) /\
    files s !! _ocsp_store H = Some (Dbm m) /\
    files s' !! _ocsp_store H = Some (Dbm (<[key := value]> m)) /\
    (example_cert <> w -> key = cert_digest H (files s !! example_cert)) /\
    files s' !! w = None /\
    files s' !! tmp_file H = None /\
    (forall p, p <> _ocsp_store H -> p <> tmp_file H -> p <> w ->
       files s' !! p = files s !! p) /\
    mixin_state s' = mixin_state s.
Proof.
  intros.
  refine (refresh_success_installs_staple H example_cert example_chain s s' _).
  vm_compute; reflexivity.
Defined.



(** ** The state across runs, and the entry points when nothing is to do *)

Lemma fetch_state_frame (s : state) :
  let s' := snd (_ocsp_prefetch_fetch_state s) in
  files s' = files s /\ dirs s' = dirs s /\
  storage_disk s' = storage_disk s /\ trace s' = trace s.
Proof.
  unfold _ocsp_prefetch_fetch_state, try_except, storage_fetch,
    storage_initialize, bind, gets, modify, ret, raise.
  repeat (case_match; simpl in *; simplify_eq); repeat split; reflexivity.
Qed.

Lemma fetch_state_new_run (s : state) :
  ocsp_prefetch (snd (_ocsp_prefetch_fetch_state (new_run s))) =
  default [] (storage_disk s).
Proof.
  unfold _ocsp_prefetch_fetch_state, try_except, storage_fetch,
    storage_initialize, bind, gets, modify, ret, raise, new_run. simpl.
  destruct (storage_disk s); reflexivity.
Qed.


(** X9: What [_ocsp_prefetch_save] saves is what a later run of Certbot loads:
    the whole dictionary, with the entry of the certificate stamped with the
    time of the save. *)
Theorem saved_state_is_loaded (H : host) (cert chain : string) (s s1 : state) :
  _ocsp_prefetch_save H cert chain s = (Ok tt, s1) ->
  let s2 := snd (_ocsp_prefetch_fetch_state (new_run s1)) in
  ocsp_prefetch s2 = ocsp_prefetch s1 /\
  dict_get cert (ocsp_prefetch s2) =
    Some {| lastupdate := time_time H s; chain_path := chain |} /\
  forall k, k <> cert ->
    dict_get k (ocsp_prefetch s2) = dict_get k (ocsp_prefetch s).
Proof.
  intros Hsave s2.
  destruct (prefetch_save_stamps H cert chain s)
    as (r & s1' & Hsave' & Hpre & Hdisk & _).
  rewrite Hsave in Hsave'. inversion Hsave'; subst r s1'. clear Hsave'.
  specialize (Hdisk eq_refl).
  assert (Hload : ocsp_prefetch s2 = ocsp_prefetch s1).
  { subst s2.
    unfold _ocsp_prefetch_fetch_state, try_except, storage_fetch,
      storage_initialize, bind, gets, modify, ret, raise, new_run.
    simpl. rewrite Hdisk. reflexivity. }
  split; [exact Hload|]. rewrite Hload, Hpre.
  split; [apply dict_get_set_eq|].
  intros k Hk. apply dict_get_set_ne. auto.
Qed.

Lemma saved_state_is_loaded_witness :
  let H := good_host in
  let s := empty_state in
  let s1 := snd (_ocsp_prefetch_save H example_cert example_chain s) in
  let s2 := snd (_ocsp_prefetch_fetch_state (new_run s1)) in
  ocsp_prefetch s2 = ocsp_prefetch s1 /\
  dict_get example_cert (ocsp_prefetch s2) =
    Some {| lastupdate := time_time H s; chain_path := example_chain |} /\
  forall k, k <> example_cert ->
    dict_get k (ocsp_prefetch s2) = dict_get k (ocsp_prefetch s).
Proof.
  intros.
  refine (saved_state_is_loaded H example_cert example_chain s s1 _).
  vm_compute; reflexivity.
Defined.

(** X10: With no certificate tracked once the state is loaded, [restart] is the
    restart of the base class: no directory is made, nothing is copied and
    nothing is replaced. *)
Theorem restart_untracked_is_plain (H : host) (s : state) :
  let s0 := snd (restart_load s) in
  dict_nonempty (ocsp_prefetch s0) = false ->
  restart H s = super_restart H s0 /\
  files s0 = files s /\ dirs s0 = dirs s /\ trace s0 = trace s.
Proof.
  intros s0 Hnone. split.
  - unfold restart. rewrite (bind_ok _ _ _ _ _ (restart_load_ok s)). fold s0.
    unfold bind at 1. unfold bind at 1, gets at 1. rewrite Hnone.
    unfold ret at 1. unfold try_finally.
    pose proof (super_restart_prefetch H s0) as Hp.
    destruct (super_restart H s0) as [r s2]. simpl in Hp.
    unfold bind, gets. rewrite Hp, Hnone. reflexivity.
  - subst s0. unfold restart_load, bind, gets.
    destruct (dict_nonempty (ocsp_prefetch s)); simpl; [auto|].
    destruct (fetch_state_frame s) as (Hf & Hd & _ & Ht). auto.
Qed.

Lemma restart_untracked_is_plain_witness :
  let H := good_host in
  let s := stapled_state H in
  let s0 := snd (restart_load s) in
  restart H s = super_restart H s0 /\
  files s0 = files s /\ dirs s0 = dirs s /\ trace s0 = trace s.
Proof.
  intros. refine (restart_untracked_is_plain H s _). vm_compute; reflexivity.
Defined.

(** X11: The deploy hook for a certificate that is not tracked loads the state
    and does nothing else: no refresh, no save. *)
Theorem deploy_untracked_is_idle (H : host) (lineage : Lineage.t) (s : state) :
  let s0 := snd (_ocsp_prefetch_fetch_state s) in
  dict_get (Lineage.cert_path lineage) (ocsp_prefetch s0) = None ->
  deploy_ocsp_prefetch H lineage s = (Ok tt, s0) /\
  files s0 = files s /\ storage_disk s0 = storage_disk s /\ trace s0 = trace s.
Proof.
  intros s0 Hnone.
  destruct (fetch_state_frame s) as (Hf & _ & Hd & Ht). fold s0 in Hf, Hd, Ht.
  split; [|auto].
  unfold deploy_ocsp_prefetch.
  rewrite (bind_ok _ _ _ _ _ (fetch_state_ok s)). fold s0.
  unfold bind, gets. cbv beta iota. rewrite Hnone.
  destruct (negb (dict_nonempty (ocsp_prefetch s0))); reflexivity.
Qed.

Lemma deploy_untracked_is_idle_witness :
  let H := good_host in
  let s := tracked_state H in
  let lineage := {| Lineage.cert_path := cert_a; Lineage.chain_path := "chain a" |} in
  let s0 := snd (_ocsp_prefetch_fetch_state s) in
  deploy_ocsp_prefetch H lineage s = (Ok tt, s0) /\
  files s0 = files s /\ storage_disk s0 = storage_disk s /\ trace s0 = trace s.
Proof.
  intros. refine (deploy_untracked_is_idle H lineage s _). vm_compute; reflexivity.
Defined.

(** X12: The deploy hook for a tracked certificate whose refresh raises an
    [OCSPCertificateError]: the hook returns, the certificate is no longer
    tracked in memory, and the storage file is what it was, so a later run
    that finds the certificate in the storage file tracks it again. *)
Theorem deploy_eviction_is_not_saved (H : host) (lineage : Lineage.t)
    (s s1 : state) (e : exn) :
  let cert := Lineage.cert_path lineage in
  let s0 := snd (_ocsp_prefetch_fetch_state s) in
  is_Some (dict_get cert (ocsp_prefetch s0)) ->
  _ocsp_refresh H cert (Lineage.chain_path lineage) s0 = (Raise e, s1) ->
  is_OCSPCertificateError e = true ->
  exists s2,
    deploy_ocsp_prefetch H lineage s = (Ok tt, s2) /\
    dict_get cert (ocsp_prefetch s2) = None /\
    storage_disk s2 = storage_disk s /\
    ocsp_prefetch (snd (_ocsp_prefetch_fetch_state (new_run s2))) =
      default [] (storage_disk s).
Proof.
  intros cert s0 Htracked Hr He.
  destruct (fetch_state_frame s) as (_ & _ & Hd & _). fold s0 in Hd.
  destruct (try_refresh_eviction H _ _ _ _ _ Hr He Htracked)
    as (s2 & Htry & Hpre & Hdisk & _).
  exists s2. split; [|split; [|split]].
  - rewrite (deploy_tracked H lineage s Htracked). fold s0 cert.
    unfold bind at 1, try_except. unfold bind at 1. rewrite Htry, He. reflexivity.
  - rewrite Hpre. apply dict_get_del_eq.
  - congruence.
  - rewrite fetch_state_new_run. congruence.
Qed.

(** The second of three tracked certificates is revoked when it is
    deployed: it is dropped in memory and still in the storage file. *)
Lemma deploy_eviction_is_not_saved_witness :
  let H := b_revoked_host in
  let s := three_certs_state H in
  let lineage := {| Lineage.cert_path := cert_b; Lineage.chain_path := "chain b" |} in
  let s0 := snd (_ocsp_prefetch_fetch_state s) in
  let s1 := snd (_ocsp_refresh H cert_b "chain b" s0) in
  exists s2,
    deploy_ocsp_prefetch H lineage s = (Ok tt, s2) /\
    dict_get cert_b (ocsp_prefetch s2) = None /\
    storage_disk s2 = storage_disk s /\
    ocsp_prefetch (snd (_ocsp_prefetch_fetch_state (new_run s2))) =
      default [] (storage_disk s).
Proof.
  intros.
  refine (deploy_eviction_is_not_saved H lineage s s1
            (Exn OCSPCertificateError "Certificate has been revoked.") _ _ eq_refl).
  - vm_compute. eauto.
  - vm_compute; reflexivity.
Defined.


(** X13: A sweep in which no tracked entry is due loads the state and does
    nothing else: no query, no write, no save. *)
Theorem sweep_nothing_due_is_idle (H : host) (s : state) :
  let s0 := snd (_ocsp_prefetch_fetch_state s) in
  (forall cert pf,
     dict_get cert (ocsp_prefetch s0) = Some pf ->
     fst (_ocsp_refresh_needed H (lastupdate pf) s0) = Ok false) ->
  update_ocsp_prefetch H s = (Ok tt, s0) /\
  files s0 = files s /\ storage_disk s0 = storage_disk s /\ trace s0 = trace s.
Proof.
  intros s0 Hnot.
  destruct (fetch_state_frame s) as (Hf & _ & Hd & Ht). fold s0 in Hf, Hd, Ht.
  split; [|auto].
  unfold update_ocsp_prefetch.
  rewrite (bind_ok _ _ _ _ _ (fetch_state_ok s)). fold s0.
  unfold bind at 1, gets at 1.
  destruct (negb (dict_nonempty (ocsp_prefetch s0))); [reflexivity|].
  assert (Hloop : forall keys,
    (forall k, k ∈ keys -> is_Some (dict_get k (ocsp_prefetch s0))) ->
    for_each keys (update_one H) s0 = (Ok tt, s0)).
  { induction keys as [|k keys IH]; intros Hall; [reflexivity|].
    destruct (Hall k) as [pf Hpf]; [left|].
    simpl. unfold bind.
    rewrite (update_one_not_due H k pf s0 Hpf (Hnot k pf Hpf)).
    apply IH. intros k' Hin. apply Hall. right. exact Hin. }
  apply Hloop. intros k. apply dict_get_keys.
Qed.

Lemma fresh_state_not_due (cert : string) (pf : prefetch_entry) :
  let s0 := snd (_ocsp_prefetch_fetch_state (fresh_state good_host)) in
  dict_get cert (ocsp_prefetch s0) = Some pf ->
  fst (_ocsp_refresh_needed good_host (lastupdate pf) s0) = Ok false.
Proof.
  intros s0 Hget.
  assert (Hp : ocsp_prefetch s0 =
               [(example_cert, {| lastupdate := 50000; chain_path := example_chain |})])
    by (vm_compute; reflexivity).
  rewrite Hp in Hget. simpl in Hget.
  destruct (String.eqb cert example_cert); [|discriminate].
  injection Hget as <-. vm_compute. reflexivity.
Qed.

(** An entry refreshed at time 50000 is not due at time 100000 with the
    constant at one day. *)
Lemma sweep_nothing_due_is_idle_witness :
  let H := good_host in
  let s := fresh_state H in
  let s0 := snd (_ocsp_prefetch_fetch_state s) in
  update_ocsp_prefetch H s = (Ok tt, s0) /\
  files s0 = files s /\ storage_disk s0 = storage_disk s /\ trace s0 = trace s.
Proof.
  intros. exact (sweep_nothing_due_is_idle H s fresh_state_not_due).
Defined.

(** ** The virtual hosts of [enable_ocsp_prefetch] *)

Lemma set_add_spec (vh x : vhost) (l : list vhost) :
  x ∈ set_add vh l <-> x = vh \/ x ∈ l.
Proof.
  unfold set_add. case_bool_decide as Hin.
  - split; [auto|]. intros [->|Hx]; assumption.
  - rewrite elem_of_app, list_elem_of_singleton. tauto.
Qed.

Lemma set_add_NoDup (vh : vhost) (l : list vhost) : NoDup l -> NoDup (set_add vh l).
Proof.
  intros Hnd. unfold set_add. case_bool_decide as Hin; [exact Hnd|].
  apply NoDup_app. split; [exact Hnd|]. split.
  - intros x Hx Hx'. apply list_elem_of_singleton in Hx'. subst. contradiction.
  - apply NoDup_singleton.
Qed.

Lemma add_ssl_spec (matched acc : list vhost) :
  let r := fold_left (fun acc vh => if ssl vh then set_add vh acc else acc) matched acc in
  (NoDup acc -> NoDup r) /\
  forall x, x ∈ r <-> x ∈ acc \/ (ssl x = true /\ x ∈ matched).
Proof.
  revert acc. induction matched as [|vh matched IH]; intros acc; simpl.
  - split; [auto|]. intros x. split; [auto|].
    intros [Hx|[_ Hx]]; [exact Hx|inversion Hx].
  - destruct (IH (if ssl vh then set_add vh acc else acc)) as [Hnd Hin].
    split.
    + intros Hacc. apply Hnd. destruct (ssl vh); [apply set_add_NoDup|]; exact Hacc.
    + intros x. rewrite Hin. rewrite elem_of_cons.
      destruct (ssl vh) eqn:Hssl.
      * rewrite set_add_spec. split.
        -- intros [[->|Hx]|[Hs Hx]]; auto.
        -- intros [Hx|[Hs [->|Hx]]]; auto.
      * split.
        -- intros [Hx|[Hs Hx]]; auto.
        -- intros [Hx|[Hs [->|Hx]]]; auto. congruence.
Qed.

(** X14: The virtual hosts that [enable_ocsp_prefetch] configures are exactly
    the SSL virtual hosts that [choose_vhosts] returns for one of the
    domains, each of them once. *)
Theorem select_vhosts_only_ssl (H : host) (s : state) (domains : list string) :
  NoDup (select_vhosts H s domains) /\
  forall vh,
    vh ∈ select_vhosts H s domains <->
    ssl vh = true /\ exists domain, domain ∈ domains /\ vh ∈ choose_vhosts H s domain.
Proof.
  unfold select_vhosts.
  assert (Hgen : forall acc,
    let r := fold_left
               (fun acc domain =>
                  fold_left (fun acc vh => if ssl vh then set_add vh acc else acc)
                            (choose_vhosts H s domain) acc) domains acc in
    (NoDup acc -> NoDup r) /\
    forall vh, vh ∈ r <->
      vh ∈ acc \/ (ssl vh = true /\
                   exists domain, domain ∈ domains /\ vh ∈ choose_vhosts H s domain)).
  { induction domains as [|d domains IH]; intros acc; simpl.
    - split; [auto|]. intros vh. split; [auto|].
      intros [Hx|[_ (d & Hd & _)]]; [exact Hx|inversion Hd].
    - destruct (add_ssl_spec (choose_vhosts H s d) acc) as [Hnd1 Hin1].
      destruct (IH (fold_left (fun acc vh => if ssl vh then set_add vh acc else acc)
                      (choose_vhosts H s d) acc)) as [Hnd Hin].
      split; [auto|].
      intros vh. rewrite Hin, Hin1. split.
      + intros [[Hx|[Hs Hx]]|[Hs (d' & Hd' & Hx)]]; auto.
        * right. split; [exact Hs|]. exists d. split; [left|exact Hx].
        * right. split; [exact Hs|]. exists d'. split; [right; exact Hd'|exact Hx].
      + intros [Hx|[Hs (d' & Hd' & Hx)]]; auto.
        apply elem_of_cons in Hd' as [->|Hd']; [auto|].
        right. split; [exact Hs|]. eauto. }
  destruct (Hgen []) as [Hnd Hin]. split; [apply Hnd, NoDup_nil_2|].
  intros vh. rewrite Hin. split; [|auto].
  intros [Hx|Hx]; [inversion Hx|exact Hx].
Qed.


(** ** A successful [enable_ocsp_prefetch] *)

Lemma enable_stapling_all_ok (H : host) (l : list vhost) (s s1 : state) :
  for_each l (_enable_ocsp_stapling H) s = (Ok tt, s1) ->
  cfg_pending s1 = cfg_pending s ++ map vh_name l /\ cfg_saved s1 = cfg_saved s.
Proof.
  revert s. induction l as [|vh l IH]; intros s Hrun; simpl in Hrun.
  - inversion Hrun; subst. rewrite app_nil_r. auto.
  - apply bind_ok_inv in Hrun as ([] & s0 & Hvh & Hrun).
    unfold _enable_ocsp_stapling in Hvh.
    destruct (enable_stapling_outcome H s vh); inversion Hvh; subst; clear Hvh.
    apply IH in Hrun as [Hp Hs]. simpl in Hp, Hs.
    rewrite Hp, Hs, <- app_assoc. auto.
Qed.

Lemma enable_rollback_raises (H : host) (err : exn) (s s' : state) :
  enable_rollback H err s <> (Ok tt, s').
Proof.
  unfold enable_rollback. intros Hrun.
  apply bind_ok_inv in Hrun as ([] & s1 & _ & Hrun).
  apply bind_ok_inv in Hrun as ([] & s2 & _ & Hrun).
  discriminate.
Qed.

Lemma prefetch_save_cfg (H : host) (cert chain : string) :
  preserves (fun s => (cfg_pending s, cfg_saved s)) (_ocsp_prefetch_save H cert chain).
Proof.
  intros s.
  unfold _ocsp_prefetch_save, storage_put, storage_initialize, storage_save,
    bind, gets, modify.
  repeat (case_match; simpl in *; simplify_eq); reflexivity.
Qed.

(** X15: When [enable_ocsp_prefetch] returns, the system is compatible, at least
    one SSL virtual host matched, the first staple was fetched, the entry of
    the certificate is in the storage file with the chain path and the time
    of the save, and the stapling configuration of every selected virtual
    host has been made permanent: the saved changes are those saved before,
    those that were pending and the selected virtual hosts, and nothing is
    left pending. *)
Theorem enable_success_persists (H : host) (lineage : Lineage.t)
    (domains : list string) (s s' : state) :
  enable_ocsp_prefetch H lineage domains s = (Ok tt, s') ->
  let vhosts := select_vhosts H s domains in
  let cert := Lineage.cert_path lineage in
  let chain := Lineage.chain_path lineage in
  _ensure_ocsp_prefetch_compatibility H s = (Ok tt, s) /\
  vhosts <> [] /\
  (exists s1,
     enable_until_refresh H lineage vhosts s = (Ok tt, s1) /\
     storage_disk s' =
       Some (dict_set cert {| lastupdate := time_time H s1; chain_path := chain |}
               (ocsp_prefetch s1))) /\
  dict_get cert (ocsp_prefetch s') <> None /\
  cfg_pending s' = [] /\
  forall name,
    name ∈ cfg_saved s' <->
    name ∈ cfg_saved s \/ name ∈ cfg_pending s \/
    exists vh, vh ∈ vhosts /\ vh_name vh = name.
Proof.
  intros Hrun vhosts cert chain.
  destruct (compatibility_cases H s) as [Hc|[msg Hc]].
  2:{ unfold enable_ocsp_prefetch in Hrun. unfold bind at 1 in Hrun.
      rewrite Hc in Hrun. discriminate. }
  split; [exact Hc|].
  assert (Hne : vhosts <> []).
  { intros Hnil. unfold enable_ocsp_prefetch in Hrun.
    rewrite (bind_ok _ _ _ _ _ Hc) in Hrun. unfold bind at 1, gets at 1 in Hrun.
    fold vhosts in Hrun. rewrite Hnil in Hrun. discriminate. }
  split; [exact Hne|].
  rewrite (enable_eq H lineage domains s Hc Hne) in Hrun. fold vhosts in Hrun.
  unfold try_except in Hrun.
  destruct (enable_sequence H lineage vhosts s) as [[[]|e] s3] eqn:Hseq.
  2:{ destruct (is_PluginError e); [|discriminate].
      exfalso. exact (enable_rollback_raises H e s3 s' Hrun). }
  inversion Hrun; subst s3; clear Hrun.
  unfold enable_sequence in Hseq.
  apply bind_ok_inv in Hseq as ([] & s1 & Huntil & Hseq).
  apply bind_ok_inv in Hseq as ([] & s2 & Hsave & Hcfg).
  fold cert chain in Hsave.
  (* the save *)
  destruct (prefetch_save_stamps H cert chain s1) as (r & s2' & Hsave' & Hpre & Hdisk & _).
  rewrite Hsave in Hsave'. inversion Hsave'; subst r s2'; clear Hsave'.
  specialize (Hdisk eq_refl).
  pose proof (prefetch_save_cfg H cert chain s1) as Hcfg2.
  rewrite Hsave in Hcfg2. simpl in Hcfg2.
  (* the configuration save *)
  unfold config_save in Hcfg.
  destruct (config_save_outcome H s2); inversion Hcfg; subst s'; clear Hcfg. simpl.
  (* the configuration before the save *)
  pose proof Huntil as Hsteps.
  unfold enable_until_refresh in Hsteps.
  apply bind_ok_inv in Hsteps as ([] & t1 & Hvh & Hsteps).
  apply bind_ok_inv in Hsteps as ([] & t2 & Hdirs & Hsteps).
  apply bind_ok_inv in Hsteps as ([] & t3 & Hrestart & Hsteps).
  apply bind_ok_inv in Hsteps as ([] & t4 & Hsleep & Hrefresh).
  apply enable_stapling_all_ok in Hvh as [Hp1 Hs1].
  pose proof (ensure_ocsp_dirs_mixin H t1) as Hm2. rewrite Hdirs in Hm2.
  pose proof (restart_cfg H t2) as Hm3. rewrite Hrestart in Hm3.
  inversion Hsleep; subst t4; clear Hsleep.
  pose proof (ocsp_refresh_mixin H cert chain (emit (EvSleep 2) t3)) as Hm5.
  unfold cert, chain in Hm5. rewrite Hrefresh in Hm5.
  unfold mixin_state in Hm2, Hm5. simpl in Hm2, Hm3, Hm5.
  assert (Hp : cfg_pending s2 = cfg_pending s ++ map vh_name vhosts) by congruence.
  assert (Hs : cfg_saved s2 = cfg_saved s) by congruence.
  split; [exists s1; split; [exact Huntil|rewrite Hdisk, Hpre; reflexivity]|].
  split; [rewrite Hpre, dict_get_set_eq; discriminate|].
  split; [reflexivity|].
  intros name. rewrite Hs, Hp, !elem_of_app.
  rewrite (list_elem_of_In (map vh_name vhosts) name), in_map_iff.
  split.
  - intros [Hn|[Hn|(vh & Hvh & Hin)]]; auto.
    right. right. exists vh. split; [apply list_elem_of_In; exact Hin|exact Hvh].
  - intros [Hn|[Hn|(vh & Hin & Hvh)]]; auto.
    right. right. exists vh. split; [exact Hvh|apply list_elem_of_In; exact Hin].
Qed.

(** Prefetching is enabled for two domains of a certificate on a host where
    everything works. *)
Lemma enable_success_persists_witness :
  let H := good_host in
  let s := stapled_state H in
  let domains := ["example.org"; "www.example.org"] in
  let s' := snd (enable_ocsp_prefetch H example_lineage domains s) in
  let vhosts := select_vhosts H s domains in
  let cert := Lineage.cert_path example_lineage in
  let chain := Lineage.chain_path example_lineage in
  _ensure_ocsp_prefetch_compatibility H s = (Ok tt, s) /\
  vhosts <> [] /\
  (exists s1,
     enable_until_refresh H example_lineage vhosts s = (Ok tt, s1) /\
     storage_disk s' =
       Some (dict_set cert {| lastupdate := time_time H s1; chain_path := chain |}
               (ocsp_prefetch s1))) /\
  dict_get cert (ocsp_prefetch s') <> None /\
  cfg_pending s' = [] /\
  forall name,
    name ∈ cfg_saved s' <->
    name ∈ cfg_saved s \/ name ∈ cfg_pending s \/
    exists vh, vh ∈ vhosts /\ vh_name vh = name.
Proof.
  intros.
  refine (enable_success_persists H example_lineage domains s s' _).
  vm_compute. reflexivity.
Defined.




(** ** A successful refresh in the sweep and in the deploy hook *)

Lemma prefetch_save_files (H : host) (cert chain : string) :
  preserves files (_ocsp_prefetch_save H cert chain).
Proof.
  intros s.
  unfold _ocsp_prefetch_save, storage_put, storage_initialize, storage_save,
    bind, gets, modify.
  repeat (case_match; simpl in *; simplify_eq); reflexivity.
Qed.

(** X17: When the refresh of a certificate succeeds, the periodic sweep (for a
    due entry) and the deploy hook (for a tracked certificate, due or not)
    continue with [_ocsp_prefetch_save]: the entry gets the time after the
    refresh and the chain path used, the files are as the refresh left them,
    only a failing storage can make the save raise, and when it returns the
    storage file holds the entry.  That entry is due again only once more
    than the internal TTL has passed. *)
Theorem successful_refresh_restamps (H : host) (cert chain : string)
    (s s1 : state) :
  _ocsp_refresh H cert chain s = (Ok tt, s1) ->
  let entry := {| lastupdate := time_time H s1; chain_path := chain |} in
  (exists r s2,
     _ocsp_prefetch_save H cert chain s1 = (r, s2) /\
     dict_get cert (ocsp_prefetch s2) = Some entry /\
     files s2 = files s1 /\
     (forall e, r = Raise e -> exn_cls e = PluginStorageError) /\
     (r = Ok tt ->
      exists d, storage_disk s2 = Some d /\ dict_get cert d = Some entry) /\
     (forall pf,
        dict_get cert (ocsp_prefetch s) = Some pf -> chain_path pf = chain ->
        fst (_ocsp_refresh_needed H (lastupdate pf) s) = Ok true ->
        update_one H cert s = (r, s2)) /\
     (forall lineage s_pre,
        Lineage.cert_path lineage = cert -> Lineage.chain_path lineage = chain ->
        snd (_ocsp_prefetch_fetch_state s_pre) = s ->
        is_Some (dict_get cert (ocsp_prefetch s)) ->
        deploy_ocsp_prefetch H lineage s_pre = (r, s2))) /\
  (forall s',
     fst (_ocsp_refresh_needed H (lastupdate entry) s') = Ok true ->
     (OCSP_INTERNAL_TTL H < time_time H s' - time_time H s1)%Q).
Proof.
  intros Hr entry. split.
  - destruct (prefetch_save_stamps H cert chain s1)
      as (r & s2 & Hsave & Hpre & Hdisk & Hcls & _ & _).
    fold entry in Hpre.
    assert (Hentry : dict_get cert (ocsp_prefetch s2) = Some entry).
    { rewrite Hpre. apply dict_get_set_eq. }
    exists r, s2. split; [exact Hsave|]. split; [exact Hentry|].
    split.
    { pose proof (prefetch_save_files H cert chain s1) as Hf.
      rewrite Hsave in Hf. exact Hf. }
    split; [exact Hcls|]. split; [|split].
    + intros Hok. exists (ocsp_prefetch s2). split; [exact (Hdisk Hok)|exact Hentry].
    + intros pf Hpf Hchain Hdue. subst chain.
      rewrite (update_one_success H _ _ _ _ Hpf Hdue Hr). exact Hsave.
    + intros lineage s_pre Hc Hch Hs Htracked. subst cert chain s.
      rewrite (deploy_tracked H lineage s_pre Htracked).
      unfold bind at 1, try_except. unfold bind at 1.
      rewrite (try_refresh_ok H _ _ _ _ Hr). exact Hsave.
  - intros s' Hdue. simpl in Hdue.
    rewrite ocsp_refresh_needed_eq in Hdue. simpl in Hdue.
    injection Hdue as Hdue. apply Qlt_bool_iff in Hdue. lra.
Qed.

(** The tracked certificate, last refreshed at time 0, is refreshed at time
    100000. *)
Lemma successful_refresh_restamps_witness :
  let H := good_host in
  let s := snd (_ocsp_prefetch_fetch_state (tracked_state H)) in
  let s1 := snd (_ocsp_refresh H example_cert example_chain s) in
  let entry := {| lastupdate := time_time H s1; chain_path := example_chain |} in
  (exists r s2,
     _ocsp_prefetch_save H example_cert example_chain s1 = (r, s2) /\
     dict_get example_cert (ocsp_prefetch s2) = Some entry /\
     files s2 = files s1 /\
     (forall e, r = Raise e -> exn_cls e = PluginStorageError) /\
     (r = Ok tt ->
      exists d, storage_disk s2 = Some d /\ dict_get example_cert d = Some entry) /\
     (forall pf,
        dict_get example_cert (ocsp_prefetch s) = Some pf ->
        chain_path pf = example_chain ->
        fst (_ocsp_refresh_needed H (lastupdate pf) s) = Ok true ->
        update_one H example_cert s = (r, s2)) /\
     (forall lineage s_pre,
        Lineage.cert_path lineage = example_cert ->
        Lineage.chain_path lineage = example_chain ->
        snd (_ocsp_prefetch_fetch_state s_pre) = s ->
        is_Some (dict_get example_cert (ocsp_prefetch s)) ->
        deploy_ocsp_prefetch H lineage s_pre = (r, s2))) /\
  (forall s',
     fst (_ocsp_refresh_needed H (lastupdate entry) s') = Ok true ->
     (OCSP_INTERNAL_TTL H < time_time H s' - time_time H s1)%Q).
Proof.
  intros.
  refine (successful_refresh_restamps H example_cert example_chain s s1 _).
  vm_compute. reflexivity.
Defined.
